(** * Sidecar injection for Fargate tasks: [addDatadogToFargateTask]

    A shallow embedding of the Fargate helper of datadog-ecs-cdk
    (the file declaring [AddDatadogToFargateTaskProps], [formatTags] and
    [addDatadogToFargateTask]) together with the part of the task-definition
    collaborator it calls, and the properties of the injector.

    Conventions of the embedding:
    - an optional property [x?: T] is an [option T]; [None] is [undefined];
    - [a?.b] is the bind of [option], [a ?? d] is [default d a];
    - a JavaScript object used as a string map is a [gmap string _];
    - [number]s are integers ([Z]): ports, CPU units and MiB; an integer
      stands for the Number value nearest to it, which is itself up to 2^53;
    - the task is mutated in place and exceptions leave the mutations
      already made, so a computation maps a task to the task it leaves
      behind together with what it returned or threw. *)

From stdpp Require Import base option strings list gmap pretty.

Open Scope string_scope.
Open Scope Z_scope.

#[local] Set Warnings "-clear-no-such-hyp".

(** ** JavaScript values used by the helper *)

Module Js.

(** [Boolean(x)] for the optional booleans, numbers and strings the helper
    tests; an object, the empty one included, is always truthy. *)
Definition truthyBool (x : option bool) : bool :=
  match x with Some true => true | _ => false end.

Definition truthyNumber (x : option Z) : bool :=
  match x with Some n => negb (n =? 0) | None => false end.

Definition truthyString (x : option string) : bool :=
  match x with Some s => negb (String.eqb s "") | None => false end.

(** [x !== true] *)
Definition notStrictlyTrue (x : option bool) : bool :=
  match x with Some true => false | _ => true end.

(** The Number value of a non-negative integer: the nearest binary64, a tie
    going to the even significand; [None] is [Infinity]. *)
Definition toNumber (z : Z) : option Z :=
  let exponent := Z.log2 z - 52 in
  if exponent <=? 0 then Some z
  else
    let significand := Z.shiftr z exponent in
    let rest := Z.land z (Z.ones exponent) in
    let half := Z.shiftl 1 (exponent - 1) in
    let up := (half <? rest) || ((rest =? half) && Z.odd significand) in
    let x := Z.shiftl (if up then significand + 1 else significand) exponent in
    if Z.shiftl 1 1024 <=? x then None else Some x.

Definition readsBackAs (x v : Z) : bool :=
  match toNumber v with Some y => y =? x | None => false end.

(** The decimal that [Number::toString] prints for a positive integral
    Number [x]: the one with the fewest significant digits that reads back
    as [x], and the closest to [x] if there are several. The search goes
    through the multiples of [10 ^ e] next to [x], then of the smaller
    powers of ten. *)
Fixpoint shortest (x : Z) (e : nat) : Z :=
  let power := 10 ^ Z.of_nat e in
  let below := x / power * power in
  let above := below + power in
  let belowFits := (0 <? below) && readsBackAs x below in
  let aboveFits := readsBackAs x above in
  if belowFits && aboveFits then
    if x - below <? above - x then below
    else if above - x <? x - below then above
    else if Z.even (below / power) then below else above
  else if belowFits then below
  else if aboveFits then above
  else match e with
       | O => x
       | S e' => shortest x e'
       end.

Fixpoint withoutTrailingZeros (fuel : nat) (v : Z) : Z :=
  match fuel with
  | O => v
  | S fuel' => if v mod 10 =? 0 then withoutTrailingZeros fuel' (v / 10) else v
  end.

(** [String(n)] on an integer: [Number::toString] of its Number value, the
    decimal digits below 1e21 and the exponent notation from there on, as in
    [String(1e21) === '1e+21']. *)
Definition String_ (n : Z) : string :=
  if n =? 0 then "0"
  else
    let sign := if n <? 0 then "-" else "" in
    match toNumber (Z.abs n) with
    | None => sign ++ "Infinity"
    | Some x =>
        let printed := shortest x (String.length (pretty x)) in
        if printed <? 10 ^ 21 then sign ++ pretty printed
        else
          let digits := String.length (pretty printed) in
          match pretty (withoutTrailingZeros digits printed) with
          | String first more =>
              sign ++ String first (if String.eqb more "" then "" else "." ++ more)
                   ++ "e+" ++ pretty (Z.of_nat digits - 1)
          | EmptyString => sign ++ pretty printed
          end
    end.

(** An object literal: the entries in source order, a later key
    overwriting an earlier one (spreads are concatenations). *)
Definition object {V} (entries : list (string * V)) : gmap string V :=
  foldl (λ o kv, <[kv.1 := kv.2]> o) ∅ entries.

(** [Array.prototype.join] on strings. *)
Definition join (sep : string) (xs : list string) : string :=
  String.concat sep xs.

(** A property of an object literal that a conditional spread may leave
    out: absent, or present with a value that may itself be [undefined]. *)
Inductive property (A : Type) : Type :=
| Absent
| Present (value : option A).
Arguments Absent {A}.
Arguments Present {A} value.

(** Reading [o.p]: an absent property reads as [undefined]. *)
Definition read {A} (p : property A) : option A :=
  match p with Absent => None | Present v => v end.

End Js.

(** ** Opaque values of the SDK passed through unmodified *)

Inductive ContainerImage : Type :=
| fromRegistry (name : string)
| otherImage (handle : string).

Inductive Secret : Type :=
| secretRef (id : string).

(** [Record<string, string>], in the order [Object.entries] enumerates it. *)
Definition Tags : Type := list (string * string).

(** ** The configuration tree *)

Module DatadogFargateApmApplicationEnvVarsProps.
Record t : Type := mk {
  doNotSet : option bool;
  apmHostEnvVarName : option string;
  apmPortEnvVarName : option string;
  apmTraceEnabledEnvVarName : option string;
}.
End DatadogFargateApmApplicationEnvVarsProps.

Module DatadogFargateApmProps.
Record t : Type := mk {
  enabled : option bool;
  port : option Z;
  applicationEnvVars : option DatadogFargateApmApplicationEnvVarsProps.t;
}.
End DatadogFargateApmProps.

Module DatadogFargateStatsdApplicationEnvVarsProps.
Record t : Type := mk {
  doNotSet : option bool;
  statsdHostEnvVarName : option string;
  statsdPortEnvVarName : option string;
}.
End DatadogFargateStatsdApplicationEnvVarsProps.

Module DatadogFargateStatsdProps.
Record t : Type := mk {
  enabled : option bool;
  port : option Z;
  applicationEnvVars : option DatadogFargateStatsdApplicationEnvVarsProps.t;
}.
End DatadogFargateStatsdProps.

Module DatadogFargateAgentProps.
Record t : Type := mk {
  enabled : option bool;
  image : option ContainerImage;
  imageTag : option string;
  memoryLimitMiB : option Z;
  cpu : option Z;
  logToCloudWatch : option bool;
  tags : option Tags;
  apm : option DatadogFargateApmProps.t;
  statsd : option DatadogFargateStatsdProps.t;
}.
End DatadogFargateAgentProps.

Module DatadogFargateFirelensLoggingProps.
Record t : Type := mk {
  enabled : option bool;
  service : option string;
  source : option string;
  tags : option Tags;
  memoryLimitMiB : option Z;
  cpu : option Z;
  image : option ContainerImage;
  imageTag : option string;
}.
End DatadogFargateFirelensLoggingProps.

Module AddDatadogToFargateTaskProps.
Record t : Type := mk {
  datadogApiKeySecret : Secret;
  datadogSite : option string;
  agent : option DatadogFargateAgentProps.t;
  fireLensLogging : option DatadogFargateFirelensLoggingProps.t;
}.
End AddDatadogToFargateTaskProps.

Module ApmEnv := DatadogFargateApmApplicationEnvVarsProps.
Module Apm := DatadogFargateApmProps.
Module StatsdEnv := DatadogFargateStatsdApplicationEnvVarsProps.
Module Statsd := DatadogFargateStatsdProps.
Module Agent := DatadogFargateAgentProps.
Module Firelens := DatadogFargateFirelensLoggingProps.
Module Props := AddDatadogToFargateTaskProps.

(** ** Containers and the task

    The data the helper reads or writes on the SDK's objects. *)

Inductive LogDriver : Type :=
| awsLogs (streamPrefix : string)
| firelens (options : gmap string string) (secretOptions : gmap string Secret).

Inductive FirelensLogRouterType : Type := FLUENTBIT | FLUENTD.

Record FirelensConfig : Type := mkFirelensConfig {
  type : FirelensLogRouterType;
  enableECSLogMetadata : option bool;
}.

(** The object literal handed to [addContainer] or [addFirelensLogRouter]. *)
Module ContainerDefinitionOptions.
Record t : Type := mk {
  image : ContainerImage;
  memoryLimitMiB : option Z;
  cpu : Js.property Z;
  logging : option LogDriver;
  environment : gmap string string;
  secrets : gmap string Secret;
  firelensConfig : option FirelensConfig;
}.
End ContainerDefinitionOptions.
Module Options := ContainerDefinitionOptions.

Record ContainerDefinition : Type := mkContainer {
  containerName : string;
  image : ContainerImage;
  memoryLimitMiB : option Z;
  cpu : option Z;
  environment : gmap string string;
  secrets : gmap string Secret;
  logDriverConfig : option LogDriver;
  firelensRouter : option FirelensConfig;
}.

Record TaskDefinition : Type := mkTask {
  containers : list ContainerDefinition;
}.

(** ** Computations on a task *)

Inductive Error : Type :=
| DuplicateContainerName (name : string)
| FirelensRouterAlreadyAdded
| TypeError.

Inductive Completion (A : Type) : Type :=
| Normal (value : A)
| Throw (e : Error).
Arguments Normal {A} value.
Arguments Throw {A} e.

(** A computation runs on the task as it is and leaves it as mutated,
    whether it completes or throws. *)
Definition Build (A : Type) : Type :=
  TaskDefinition → TaskDefinition * Completion A.

#[global] Instance Build_ret : MRet Build := λ A a t, (t, Normal a).

#[global] Instance Build_bind : MBind Build := λ A B f m t,
  match m t with
  | (t', Normal a) => f a t'
  | (t', Throw e) => (t', Throw e)
  end.

Definition throw {A} (e : Error) : Build A := λ t, (t, Throw e).

(** [for (const x of xs) body] *)
Fixpoint forOf {A} (xs : list A) (body : A → Build unit) : Build unit :=
  match xs with
  | [] => mret ()
  | x :: xs' => body x ;; forOf xs' body
  end.

(** [if (c) { body }] *)
Definition when (c : bool) (body : Build unit) : Build unit :=
  if c then body else mret ().

(** The task a computation leaves behind, and how it completed. *)
Definition taskAfter {A} (m : Build A) (t : TaskDefinition) : TaskDefinition :=
  (m t).1.

Definition completion {A} (m : Build A) (t : TaskDefinition) : Completion A :=
  (m t).2.

(** ** The task-definition collaborator

    The SDK's [TaskDefinition] and [ContainerDefinition] are not part of this
    repository. A reference to a container object is its position in
    [task.containers], so that a mutation through the reference is seen by
    every later reader of the task. *)

Definition withEnvironment (env : gmap string string) (c : ContainerDefinition)
  : ContainerDefinition :=
  mkContainer (containerName c) (image c) (memoryLimitMiB c) (cpu c) env
    (secrets c) (logDriverConfig c) (firelensRouter c).

Definition withLogDriverConfig (cfg : option LogDriver) (c : ContainerDefinition)
  : ContainerDefinition :=
  mkContainer (containerName c) (image c) (memoryLimitMiB c) (cpu c)
    (environment c) (secrets c) cfg (firelensRouter c).

(** The position of the first container of that name. *)
Definition findIndex (name : string) (cs : list ContainerDefinition) : option nat :=
  fst <$> list_find (λ c, containerName c = name) cs.

(** Modelled from the spec: [listContainers() -> sequence of Container], the
    [task.containers] array the helper reads for its snapshot. *)
Definition listContainers : Build (list ContainerDefinition) :=
  λ t, (t, Normal (containers t)).

(** Modelled from the spec: [findContainer(name) -> Container | not-found];
    the first container of that name, or [undefined]. *)
Definition findContainer (name : string) : Build (option nat) :=
  λ t, (t, Normal (findIndex name (containers t))).

(** The container the SDK builds from a name and an options object. *)
Definition newContainer (name : string) (o : Options.t) : ContainerDefinition :=
  {| containerName := name;
     image := Options.image o;
     memoryLimitMiB := Options.memoryLimitMiB o;
     cpu := Js.read (Options.cpu o);
     environment := Options.environment o;
     secrets := Options.secrets o;
     logDriverConfig := Options.logging o;
     firelensRouter := Options.firelensConfig o |}.

(** Modelled from the spec:
    [addContainer(name, definition) -> Container | fails on duplicate name].
    A failed insertion leaves the task as it was; a new container goes
    last. *)
Definition addContainer (name : string) (o : Options.t) : Build nat :=
  λ t,
    match findIndex name (containers t) with
    | Some _ => (t, Throw (DuplicateContainerName name))
    | None =>
        (mkTask (containers t ++ [newContainer name o]),
         Normal (length (containers t)))
    end.

(** Modelled from the spec: the task holds zero or one log-routing entity,
    itself a container; a second router is refused, and so is a duplicate
    name. *)
Definition addFirelensLogRouter (name : string) (o : Options.t) : Build nat :=
  λ t,
    if existsb (λ c, bool_decide (is_Some (firelensRouter c))) (containers t)
    then (t, Throw FirelensRouterAlreadyAdded)
    else addContainer name o t.

(** Modelled from the spec: [Container.addEnvironment(key, value) -> void],
    overwriting; [container.environment[key] = value] on the shared object. *)
Definition addEnvironment (container : nat) (key value : string) : Build unit :=
  λ t,
    (mkTask (alter (λ c, withEnvironment (<[key := value]> (environment c)) c)
               container (containers t)),
     Normal ()).

(** [container.logDriverConfig = config] on the shared object. What
    [LogDriver.bind] renders is identified with the driver it renders. *)
Definition setLogDriverConfig (container : nat) (cfg : LogDriver) : Build unit :=
  λ t,
    (mkTask (alter (withLogDriverConfig (Some cfg)) container (containers t)),
     Normal ()).

(** ** The helper *)

Definition formatTags (tags : Tags) (sep : string) : string :=
  let formattedTags := (λ kv : string * string, kv.1 ++ ":" ++ kv.2) <$> tags in
  Js.join sep formattedTags.

Section Injection.

Variable props : Props.t.

Let agent := Props.agent props.
Let apm := agent ≫= Agent.apm.
Let statsd := agent ≫= Agent.statsd.
Let apmEnvVars := apm ≫= Apm.applicationEnvVars.
Let statsdEnvVars := statsd ≫= Statsd.applicationEnvVars.
Let fireLensLogging := Props.fireLensLogging props.

(** [String(props.agent?.apm?.port ?? '8126')] *)
Definition apmPort : string :=
  default "8126" (Js.String_ <$> apm ≫= Apm.port).

(** [String(props.agent?.statsd?.port ?? '8125')] *)
Definition statsdPort : string :=
  default "8125" (Js.String_ <$> statsd ≫= Statsd.port).

(** The second argument of [task.addContainer('datadog-agent', ...)]. *)
Definition agentContainerOptions : Options.t :=
  {| Options.image :=
       default
         (fromRegistry
            ("public.ecr.aws/datadog/agent:"
               ++ default "latest" (agent ≫= Agent.imageTag)))
         (agent ≫= Agent.image);
     Options.memoryLimitMiB := Some (default 256 (agent ≫= Agent.memoryLimitMiB));
     Options.cpu :=
       if Js.truthyNumber (agent ≫= Agent.cpu)
       then Js.Present (fireLensLogging ≫= Firelens.cpu)
       else Js.Absent;
     Options.logging :=
       if Js.truthyBool (agent ≫= Agent.logToCloudWatch)
       then Some (awsLogs "datadog-agent")
       else None;
     Options.environment :=
       Js.object
         ([("ECS_FARGATE", "true");
           ("DD_SITE", default "datadoghq.com" (Props.datadogSite props))]
          ++ (if Js.truthyBool (apm ≫= Apm.enabled)
              then [("DD_APM_ENABLED", "true");
                    ("DD_APM_RECEIVER_PORT", apmPort)]
              else [("DD_APM_ENABLED", "false")])
          ++ (if Js.truthyBool (statsd ≫= Statsd.enabled)
              then [("DD_USE_DOGSTATSD", "true");
                    ("DD_DOGSTATSD_PORT", statsdPort)]
              else [("DD_USE_DOGSTATSD", "false")])
          ++ (match agent ≫= Agent.tags with
              | Some tags => [("DD_TAGS", formatTags tags " ")]
              | None => []
              end));
     Options.secrets := Js.object [("DD_API_KEY", Props.datadogApiKeySecret props)];
     Options.firelensConfig := None |}.

(** The second argument of [task.addFirelensLogRouter('log_router', ...)]. *)
Definition logRouterOptions : Options.t :=
  {| Options.image :=
       default
         (fromRegistry
            ("public.ecr.aws/aws-observability/aws-for-fluent-bit:"
               ++ default "latest" (fireLensLogging ≫= Firelens.imageTag)))
         (fireLensLogging ≫= Firelens.image);
     Options.memoryLimitMiB :=
       Some (default 256 (fireLensLogging ≫= Firelens.memoryLimitMiB));
     Options.cpu :=
       if Js.truthyNumber (fireLensLogging ≫= Firelens.cpu)
       then Js.Present (fireLensLogging ≫= Firelens.cpu)
       else Js.Absent;
     Options.logging := None;
     Options.environment := ∅;
     Options.secrets := ∅;
     Options.firelensConfig := Some (mkFirelensConfig FLUENTBIT (Some true)) |}.

(** The [options] of [ecs.LogDrivers.firelens({...})]. *)
Definition firelensOptions : gmap string string :=
  Js.object
    ([("Name", "datadog");
      ("Host", "http-intake.logs." ++ default "datadoghq.com" (Props.datadogSite props));
      ("TLS", "on");
      ("provider", "ecs");
      ("dd_message_key", "log")]
     ++ (match fireLensLogging ≫= Firelens.service with
         | Some service =>
             if Js.truthyString (Some service) then [("dd_service", service)] else []
         | None => []
         end)
     ++ (match fireLensLogging ≫= Firelens.source with
         | Some source =>
             if Js.truthyString (Some source) then [("dd_source", source)] else []
         | None => []
         end)
     ++ (match fireLensLogging ≫= Firelens.tags with
         | Some tags => [("dd_tags", formatTags tags ",")]
         | None => []
         end)).

Definition firelensLogDriver : LogDriver :=
  firelens firelensOptions (Js.object [("apikey", Props.datadogApiKeySecret props)]).

(** The three loops over the snapshot of container names. *)
Definition propagateApmEnvVars (containerNames : list string) : Build unit :=
  forOf containerNames (λ containerName,
    container ← findContainer containerName;
    match container with
    | Some container =>
        addEnvironment container
          (default "DD_TRACE_ENABLED" (apmEnvVars ≫= ApmEnv.apmTraceEnabledEnvVarName))
          "true" ;;
        addEnvironment container
          (default "DD_AGENT_HOST" (apmEnvVars ≫= ApmEnv.apmHostEnvVarName))
          "localhost" ;;
        addEnvironment container
          (default "DD_TRACE_AGENT_PORT" (apmEnvVars ≫= ApmEnv.apmPortEnvVarName))
          apmPort
    | None => mret ()
    end).

Definition propagateStatsdEnvVars (containerNames : list string) : Build unit :=
  forOf containerNames (λ containerName,
    container ← findContainer containerName;
    match container with
    | Some container =>
        addEnvironment container
          (default "STATSD_HOST" (statsdEnvVars ≫= StatsdEnv.statsdHostEnvVarName))
          "localhost" ;;
        addEnvironment container
          (default "STATSD_PORT" (statsdEnvVars ≫= StatsdEnv.statsdPortEnvVarName))
          statsdPort
    | None => mret ()
    end).

(** The last loop dereferences what [findContainer] returned unguarded:
    on [undefined], both the call of [bind] and the assignment throw a
    [TypeError]. *)
Definition bindFirelensLogDriver (containerNames : list string) : Build unit :=
  forOf containerNames (λ containerName,
    container ← findContainer containerName;
    match container with
    | Some container => setLogDriverConfig container firelensLogDriver
    | None => throw TypeError
    end).

Definition addDatadogToFargateTask : Build unit :=
  containers ← listContainers;
  let containerNames := containerName <$> containers in
  when (Js.truthyBool (agent ≫= Agent.enabled)) (
    addContainer "datadog-agent" agentContainerOptions ;;
    when (Js.truthyBool (apm ≫= Apm.enabled)
          && Js.notStrictlyTrue (apmEnvVars ≫= ApmEnv.doNotSet))
      (propagateApmEnvVars containerNames) ;;
    when (Js.truthyBool (statsd ≫= Statsd.enabled)
          && Js.notStrictlyTrue (statsdEnvVars ≫= StatsdEnv.doNotSet))
      (propagateStatsdEnvVars containerNames)) ;;
  when (Js.truthyBool (fireLensLogging ≫= Firelens.enabled)) (
    addFirelensLogRouter "log_router" logRouterOptions ;;
    bindFirelensLogDriver containerNames).

End Injection.

(** ** Vocabulary of the properties *)

(** The snapshot the helper takes on entry. *)
Definition containerNames (t : TaskDefinition) : list string :=
  containerName <$> containers t.

(** The names under which the two propagation loops write. *)
Definition apmEnvVarNames (props : Props.t) : list string :=
  let vars := (Props.agent props ≫= Agent.apm) ≫= Apm.applicationEnvVars in
  [default "DD_TRACE_ENABLED" (vars ≫= ApmEnv.apmTraceEnabledEnvVarName);
   default "DD_AGENT_HOST" (vars ≫= ApmEnv.apmHostEnvVarName);
   default "DD_TRACE_AGENT_PORT" (vars ≫= ApmEnv.apmPortEnvVarName)].

Definition statsdEnvVarNames (props : Props.t) : list string :=
  let vars := (Props.agent props ≫= Agent.statsd) ≫= Statsd.applicationEnvVars in
  [default "STATSD_HOST" (vars ≫= StatsdEnv.statsdHostEnvVarName);
   default "STATSD_PORT" (vars ≫= StatsdEnv.statsdPortEnvVarName)].

(** The names the helper writes in the sibling containers under [props]:
    none where a loop is not run. *)
Definition propagatedApmEnvVarNames (props : Props.t) : list string :=
  let agent := Props.agent props in
  let apm := agent ≫= Agent.apm in
  if Js.truthyBool (agent ≫= Agent.enabled)
     && (Js.truthyBool (apm ≫= Apm.enabled)
         && Js.notStrictlyTrue ((apm ≫= Apm.applicationEnvVars) ≫= ApmEnv.doNotSet))
  then apmEnvVarNames props
  else [].

Definition propagatedStatsdEnvVarNames (props : Props.t) : list string :=
  let agent := Props.agent props in
  let statsd := agent ≫= Agent.statsd in
  if Js.truthyBool (agent ≫= Agent.enabled)
     && (Js.truthyBool (statsd ≫= Statsd.enabled)
         && Js.notStrictlyTrue
              ((statsd ≫= Statsd.applicationEnvVars) ≫= StatsdEnv.doNotSet))
  then statsdEnvVarNames props
  else [].

(** [t'] keeps every container of [t] at its position and under its name;
    one whose name is outside [touched] is kept as it is, and the others
    keep every environment variable outside [written]. *)
Definition preserves (touched written : list string) (t t' : TaskDefinition) : Prop :=
  ∀ i c, containers t !! i = Some c →
    ∃ c', containers t' !! i = Some c'
          ∧ containerName c' = containerName c
          ∧ (containerName c ∉ touched → c' = c)
          ∧ (∀ k, k ∉ written → environment c' !! k = environment c !! k).

Definition Preserving {A} (touched written : list string) (m : Build A) : Prop :=
  ∀ t, preserves touched written t (taskAfter m t).

(** What a run of [addEnvironment] calls on one container makes of it. *)
Definition addEnvironments (writes : list (string * string)) (c : ContainerDefinition)
  : ContainerDefinition :=
  withEnvironment (foldl (λ env kv, <[kv.1 := kv.2]> env) (environment c) writes) c.

Definition apmWrites (props : Props.t) : list (string * string) :=
  zip (apmEnvVarNames props) ["true"; "localhost"; apmPort props].

Definition statsdWrites (props : Props.t) : list (string * string) :=
  zip (statsdEnvVarNames props) ["localhost"; statsdPort props].

(** The helper after its snapshot, stage by stage. *)
Definition apmStage (props : Props.t) (names : list string) : Build unit :=
  let apm := Props.agent props ≫= Agent.apm in
  when (Js.truthyBool (apm ≫= Apm.enabled)
        && Js.notStrictlyTrue ((apm ≫= Apm.applicationEnvVars) ≫= ApmEnv.doNotSet))
    (propagateApmEnvVars props names).

Definition statsdStage (props : Props.t) (names : list string) : Build unit :=
  let statsd := Props.agent props ≫= Agent.statsd in
  when (Js.truthyBool (statsd ≫= Statsd.enabled)
        && Js.notStrictlyTrue
             ((statsd ≫= Statsd.applicationEnvVars) ≫= StatsdEnv.doNotSet))
    (propagateStatsdEnvVars props names).

Definition firelensStage (props : Props.t) (names : list string) : Build unit :=
  when (Js.truthyBool (Props.fireLensLogging props ≫= Firelens.enabled)) (
    addFirelensLogRouter "log_router" (logRouterOptions props) ;;
    bindFirelensLogDriver props names).

(** Sample values for the worked examples. *)
Definition apiKey : Secret := secretRef "datadog-api-key".

Definition web : ContainerDefinition :=
  {| containerName := "web";
     image := fromRegistry "nginx:stable";
     memoryLimitMiB := Some 512;
     cpu := None;
     environment := {[ "PORT" := "8080" ]};
     secrets := ∅;
     logDriverConfig := None;
     firelensRouter := None |}.

Definition webTask : TaskDefinition := mkTask [web].

Definition apmOn : Apm.t := Apm.mk (Some true) None None.

Definition agentWith (enabled : option bool) (cpu : option Z) (tags : option Tags)
    (apm : option Apm.t) (statsd : option Statsd.t) : Agent.t :=
  Agent.mk enabled None None None cpu None tags apm statsd.

Definition firelensWith (enabled : option bool) (service source : option string)
    (tags : option Tags) (cpu : option Z) : Firelens.t :=
  Firelens.mk enabled service source tags None cpu None None.

Definition propsWith (agent : option Agent.t) (fireLensLogging : option Firelens.t)
  : Props.t :=
  Props.mk apiKey None agent fireLensLogging.

(** ** Further vocabulary: what a call keeps of a task *)

(** A container as it was built: its environment and log configuration,
    the two fields the helper writes, blanked. *)
Definition asBuilt (c : ContainerDefinition) : ContainerDefinition :=
  withLogDriverConfig None (withEnvironment ∅ c).

Definition skeleton (t : TaskDefinition) : list ContainerDefinition :=
  asBuilt <$> containers t.

(** [t'] has every container of [t] at its position, related by [R]. *)
Definition keeps (R : relation ContainerDefinition) (t t' : TaskDefinition) : Prop :=
  ∀ i c, containers t !! i = Some c →
    ∃ c', containers t' !! i = Some c' ∧ R c c'.

(** A computation whose effect on the task is within [Q], however it
    completes. *)
Definition Respects {A} (Q : relation TaskDefinition) (m : Build A) : Prop :=
  ∀ t, Q t (taskAfter m t).

(** The test [addFirelensLogRouter] makes before it inserts. *)
Definition hasFirelensRouter (t : TaskDefinition) : bool :=
  existsb (λ c, bool_decide (is_Some (firelensRouter c))) (containers t).

(** The two sidecars as the helper builds them. *)
Definition agentContainer (props : Props.t) : ContainerDefinition :=
  newContainer "datadog-agent" (agentContainerOptions props).

Definition logRouterContainer (props : Props.t) : ContainerDefinition :=
  newContainer "log_router" (logRouterOptions props).

Definition agentEnabled (props : Props.t) : bool :=
  Js.truthyBool (Props.agent props ≫= Agent.enabled).

Definition firelensEnabled (props : Props.t) : bool :=
  Js.truthyBool (Props.fireLensLogging props ≫= Firelens.enabled).

(** How the call completes, decided on the task as it is on entry. *)
Definition firelensOutcome (props : Props.t) (t : TaskDefinition) : Completion unit :=
  if firelensEnabled props then
    if hasFirelensRouter t then Throw FirelensRouterAlreadyAdded
    else if bool_decide ("log_router" ∈ containerNames t)
         then Throw (DuplicateContainerName "log_router")
         else Normal ()
  else Normal ().

Definition helperOutcome (props : Props.t) (t : TaskDefinition) : Completion unit :=
  if agentEnabled props && bool_decide ("datadog-agent" ∈ containerNames t)
  then Throw (DuplicateContainerName "datadog-agent")
  else firelensOutcome props t.

(** The sidecars the call leaves in the task, in order. *)
Definition routerPart (props : Props.t) (t : TaskDefinition) : list ContainerDefinition :=
  if firelensEnabled props then
    match firelensOutcome props t with
    | Normal _ => [logRouterContainer props]
    | Throw _ => []
    end
  else [].

Definition addedSidecars (props : Props.t) (t : TaskDefinition) : list ContainerDefinition :=
  if agentEnabled props then
    if bool_decide ("datadog-agent" ∈ containerNames t) then []
    else agentContainer props :: routerPart props t
  else routerPart props t.

(** ** The daemon service for EC2 clusters and the synthetics services

    These constructs build a task definition of their own: a fresh task
    takes any container name, so nothing here can throw. A reference to the
    container is again its position in the task. *)

Module Ec2.

Inductive Cluster : Type := clusterRef (id : string).

(** A secret of the secrets manager, and [ecs.Secret.fromSecretsManager]. *)
Inductive ISecret : Type := smSecret (id : string).

Definition fromSecretsManager (s : ISecret) : Secret :=
  match s with smSecret id => secretRef id end.

(** [x !== false] *)
Definition notStrictlyFalse (x : option bool) : bool :=
  match x with Some false => false | _ => true end.

Record HealthCheck : Type := mkHealthCheck {
  command : list string;
  retries : Z;
  timeoutSeconds : Z;
  intervalSeconds : Z;
  startPeriodSeconds : Z;
}.

Record MountPoint : Type := mkMountPoint {
  containerPath : string;
  sourceVolume : string;
  readOnly : bool;
}.

Record Volume : Type := mkVolume {
  name : string;
  hostSourcePath : string;
}.

(** The object literal handed to [addContainer]. *)
Module ContainerDefinitionOptions.
Record t : Type := mk {
  image : ContainerImage;
  cpu : option Z;
  memoryLimitMiB : option Z;
  essential : option bool;
  environment : gmap string string;
  secrets : gmap string Secret;
  command : option (list string);
  healthCheck : option HealthCheck;
  logging : option LogDriver;
}.
End ContainerDefinitionOptions.
Module Options := ContainerDefinitionOptions.

Record ContainerDefinition : Type := mkContainer {
  containerName : string;
  options : Options.t;
  mountPoints : list MountPoint;
}.

Record TaskDefinition : Type := mkTask {
  family : option string;
  taskCpu : option Z;
  taskMemoryLimitMiB : option Z;
  containers : list ContainerDefinition;
  volumes : list Volume;
}.

Record Service : Type := mkService {
  cluster : Cluster;
  taskDefinition : TaskDefinition;
  daemon : option bool;
}.

(** [new ecs.Ec2TaskDefinition(scope, id, { family })] and
    [new ecs.FargateTaskDefinition(scope, id, { cpu, memoryLimitMiB })]. *)
Definition newTaskDefinition (family : option string) (cpu memoryLimitMiB : option Z)
  : TaskDefinition :=
  mkTask family cpu memoryLimitMiB [] [].

(** [taskDefinition.addContainer(id, options)]: the new container goes last
    and is returned. *)
Definition addContainer (id : string) (o : Options.t) (t : TaskDefinition)
  : TaskDefinition * nat :=
  (mkTask (family t) (taskCpu t) (taskMemoryLimitMiB t)
     (containers t ++ [mkContainer id o []]) (volumes t),
   length (containers t)).

(** [container.addMountPoints(...mountPoints)] on the shared object. *)
Definition addMountPoints (container : nat) (mps : list MountPoint)
    (t : TaskDefinition) : TaskDefinition :=
  mkTask (family t) (taskCpu t) (taskMemoryLimitMiB t)
    (alter (λ c, mkContainer (containerName c) (options c) (mountPoints c ++ mps))
       container (containers t))
    (volumes t).

(** [taskDefinition.addVolume(volume)] *)
Definition addVolume (v : Volume) (t : TaskDefinition) : TaskDefinition :=
  mkTask (family t) (taskCpu t) (taskMemoryLimitMiB t) (containers t)
    (volumes t ++ [v]).

(** *** [DatadogEcsDaemonService] *)

Module DatadogEcsLogsProps.
Record t : Type := mk {
  enabled : option bool;
  collectFromAllContainers : option bool;
  collectFromAgentContainer : option bool;
}.
End DatadogEcsLogsProps.
Module Logs := DatadogEcsLogsProps.

Module DatadogEcsDaemonServiceProps.
Record t : Type := mk {
  ecsCluster : Cluster;
  datadogApiKeySecret : Secret;
  datadogSite : option string;
  logs : option Logs.t;
  cpu : option Z;
  memoryLimitMiB : option Z;
  image : option ContainerImage;
  imageTag : option string;
  logToCloudWatch : option bool;
  disableHealthcheck : option bool;
}.
End DatadogEcsDaemonServiceProps.
Module Daemon := DatadogEcsDaemonServiceProps.

Definition agentHealthCheck : HealthCheck :=
  {| command := ["CMD-SHELL"; "agent health"];
     retries := 3;
     timeoutSeconds := 5;
     intervalSeconds := 10;
     startPeriodSeconds := 15 |}.

(** The second argument of [taskDefinition.addContainer('datadog-agent', ...)]. *)
Definition daemonContainerOptions (props : Daemon.t) : Options.t :=
  let logs := Daemon.logs props in
  {| Options.image :=
       default
         (fromRegistry
            ("public.ecr.aws/datadog/agent:"
               ++ default "latest" (Daemon.imageTag props)))
         (Daemon.image props);
     Options.cpu := Some (default 100 (Daemon.cpu props));
     Options.memoryLimitMiB := Some (default 512 (Daemon.memoryLimitMiB props));
     Options.essential := Some true;
     Options.environment :=
       Js.object
         ([("DD_SITE", default "datadoghq.com" (Daemon.datadogSite props))]
          ++ (if Js.truthyBool (logs ≫= Logs.enabled)
              then [("DD_LOGS_ENABLED", "true");
                    ("DD_LOGS_CONFIG_CONTAINER_COLLECT_ALL",
                     if notStrictlyFalse (logs ≫= Logs.collectFromAllContainers)
                     then "true" else "false")]
                   ++ (if negb (Js.truthyBool (logs ≫= Logs.collectFromAgentContainer))
                       then [("DD_CONTAINER_EXCLUDE", "name:datadog-agent")]
                       else [])
              else []));
     Options.secrets := Js.object [("DD_API_KEY", Daemon.datadogApiKeySecret props)];
     Options.command := None;
     Options.healthCheck :=
       if Js.truthyBool (Daemon.disableHealthcheck props)
       then None
       else Some agentHealthCheck;
     Options.logging :=
       if Js.truthyBool (Daemon.logToCloudWatch props)
       then Some (awsLogs "datadog-agent")
       else None |}.

(** The arguments of the two calls of [container.addMountPoints]. *)
Definition hostMountPoints : list MountPoint :=
  [mkMountPoint "/var/run/docker.sock" "docker_sock" true;
   mkMountPoint "/host/sys/fs/cgroup" "cgroup" true;
   mkMountPoint "/host/proc" "proc" true].

Definition logMountPoints : list MountPoint :=
  [mkMountPoint "/opt/datadog-agent/run" "pointdir" false;
   mkMountPoint "/var/lib/docker/containers" "containers_root" true].

(** The constructor of [DatadogEcsDaemonService]; the value is [this.service]. *)
Definition DatadogEcsDaemonService (props : Daemon.t) : Service :=
  let taskDefinition := newTaskDefinition (Some "datadog-agent-task") None None in
  let '(taskDefinition, container) :=
    addContainer "datadog-agent" (daemonContainerOptions props) taskDefinition in
  let taskDefinition := addMountPoints container hostMountPoints taskDefinition in
  let taskDefinition :=
    if Js.truthyBool (Daemon.logs props ≫= Logs.enabled)
    then addMountPoints container logMountPoints taskDefinition
    else taskDefinition in
  let taskDefinition :=
    addVolume (mkVolume "docker_sock" "/var/run/docker.sock") taskDefinition in
  let taskDefinition := addVolume (mkVolume "proc" "/proc/") taskDefinition in
  let taskDefinition := addVolume (mkVolume "cgroup" "/sys/fs/cgroup/") taskDefinition in
  let taskDefinition :=
    if Js.truthyBool (Daemon.logs props ≫= Logs.enabled)
    then addVolume (mkVolume "containers_root" "/var/lib/docker/containers")
           (addVolume (mkVolume "pointdir" "/opt/datadog-agent/run") taskDefinition)
    else taskDefinition in
  mkService (Daemon.ecsCluster props) taskDefinition (Some true).

(** *** [EcsDatadogDaemonService], the earlier version of the class *)

Module EcsDatadogDaemonServiceProps.
Record t : Type := mk {
  ecsCluster : Cluster;
  datadogApiKeySecret : ISecret;
  datadogSite : option string;
  logsDisabled : option bool;
}.
End EcsDatadogDaemonServiceProps.
Module DaemonV1 := EcsDatadogDaemonServiceProps.

Definition daemonContainerOptionsV1 (props : DaemonV1.t) : Options.t :=
  {| Options.image := fromRegistry "public.ecr.aws/datadog/agent:latest";
     Options.cpu := Some 100;
     Options.memoryLimitMiB := Some 512;
     Options.essential := Some true;
     Options.environment :=
       Js.object
         ([("DD_SITE", default "datadoghq.com" (DaemonV1.datadogSite props))]
          ++ (if Js.truthyBool (DaemonV1.logsDisabled props)
              then []
              else [("DD_LOGS_ENABLED", "true");
                    ("DD_LOGS_CONFIG_CONTAINER_COLLECT_ALL", "true")]));
     Options.secrets :=
       Js.object [("DD_API_KEY", fromSecretsManager (DaemonV1.datadogApiKeySecret props))];
     Options.command := None;
     Options.healthCheck := Some agentHealthCheck;
     Options.logging := Some (awsLogs "datadog-agent") |}.

Definition EcsDatadogDaemonService (props : DaemonV1.t) : Service :=
  let taskDefinition := newTaskDefinition (Some "datadog-agent-task") None None in
  let '(taskDefinition, container) :=
    addContainer "datadog-agent" (daemonContainerOptionsV1 props) taskDefinition in
  let taskDefinition := addMountPoints container hostMountPoints taskDefinition in
  let taskDefinition :=
    if negb (Js.truthyBool (DaemonV1.logsDisabled props))
    then addMountPoints container logMountPoints taskDefinition
    else taskDefinition in
  let taskDefinition :=
    addVolume (mkVolume "docker_sock" "/var/run/docker.sock") taskDefinition in
  let taskDefinition := addVolume (mkVolume "proc" "/proc/") taskDefinition in
  let taskDefinition := addVolume (mkVolume "cgroup" "/sys/fs/cgroup/") taskDefinition in
  let taskDefinition :=
    if negb (Js.truthyBool (DaemonV1.logsDisabled props))
    then addVolume (mkVolume "containers_root" "/var/lib/docker/containers")
           (addVolume (mkVolume "pointdir" "/opt/datadog-agent/run") taskDefinition)
    else taskDefinition in
  mkService (DaemonV1.ecsCluster props) taskDefinition (Some true).

End Ec2.

Module Synthetics.

Module DatadogPrivateSyntheticsServiceProps.
Record t : Type := mk {
  ecsCluster : Ec2.Cluster;
  datadogApiKeySecret : Secret;
  datadogAccessKeySecret : Secret;
  datadogSecretAccessKeySecret : Secret;
  datadogPublicKeyPemSecret : Secret;
  datadogPrivateKeySecret : Secret;
  datadogSite : option string;
  datadogLocationId : string;
  datadogPublicKeyFingerprint : string;
  image : option ContainerImage;
  imageTag : option string;
  cpu : option Z;
  memoryLimitMiB : option Z;
}.
End DatadogPrivateSyntheticsServiceProps.
Module Props := DatadogPrivateSyntheticsServiceProps.

(** [DatadogPrivateSyntheticsBaseService.getAddContainerDefinitionOptions] *)
Definition getAddContainerDefinitionOptions (props : Props.t) : Ec2.Options.t :=
  {| Ec2.Options.image :=
       default
         (fromRegistry
            ("datadog/synthetics-private-location-worker:"
               ++ default "latest" (Props.imageTag props)))
         (Props.image props);
     Ec2.Options.cpu := None;
     Ec2.Options.memoryLimitMiB := None;
     Ec2.Options.essential := None;
     Ec2.Options.environment :=
       Js.object [("DATADOG_SITE", default "datadoghq.com" (Props.datadogSite props))];
     Ec2.Options.secrets :=
       Js.object
         [("DATADOG_API_KEY", Props.datadogApiKeySecret props);
          ("DATADOG_ACCESS_KEY", Props.datadogAccessKeySecret props);
          ("DATADOG_SECRET_ACCESS_KEY", Props.datadogSecretAccessKeySecret props);
          ("DATADOG_PUBLIC_KEY_PEM", Props.datadogPublicKeyPemSecret props);
          ("DATADOG_PRIVATE_KEY", Props.datadogPrivateKeySecret props)];
     Ec2.Options.command :=
       Some ["--locationID=" ++ Props.datadogLocationId props;
             "--publicKey.fingerprint=" ++ Props.datadogPublicKeyFingerprint props;
             "--enableStatusProbes";
             "--statusProbesPort=8080"];
     Ec2.Options.healthCheck :=
       Some {| Ec2.command :=
                 ["CMD-SHELL"; "wget -O /dev/null http://localhost:8080/liveness || exit 1"];
               Ec2.retries := 3;
               Ec2.timeoutSeconds := 2;
               Ec2.intervalSeconds := 10;
               Ec2.startPeriodSeconds := 30 |};
     Ec2.Options.logging :=
       Some (awsLogs "datadog-synthetics-private-location-worker") |}.

(** The constructor of [DatadogPrivateSyntheticsFargateService]. *)
Definition DatadogPrivateSyntheticsFargateService (props : Props.t) : Ec2.Service :=
  let taskDefinition :=
    Ec2.newTaskDefinition None
      (Some (default 256 (Props.cpu props)))
      (Some (default 512 (Props.memoryLimitMiB props))) in
  let '(taskDefinition, _) :=
    Ec2.addContainer "DatadogAgent" (getAddContainerDefinitionOptions props)
      taskDefinition in
  Ec2.mkService (Props.ecsCluster props) taskDefinition None.

(** [{ ...containerProps, cpu, memoryLimitMiB }] *)
Definition withCpuAndMemory (cpu memoryLimitMiB : option Z) (o : Ec2.Options.t)
  : Ec2.Options.t :=
  Ec2.Options.mk (Ec2.Options.image o) cpu memoryLimitMiB (Ec2.Options.essential o)
    (Ec2.Options.environment o) (Ec2.Options.secrets o) (Ec2.Options.command o)
    (Ec2.Options.healthCheck o) (Ec2.Options.logging o).

(** The constructor of [DatadogPrivateSyntheticsEc2Service]. *)
Definition DatadogPrivateSyntheticsEc2Service (props : Props.t) : Ec2.Service :=
  let taskDefinition := Ec2.newTaskDefinition None None None in
  let containerProps := getAddContainerDefinitionOptions props in
  let '(taskDefinition, _) :=
    Ec2.addContainer "DatadogAgent"
      (withCpuAndMemory
         (Some (default 256 (Props.cpu props)))
         (Some (default 512 (Props.memoryLimitMiB props)))
         containerProps)
      taskDefinition in
  Ec2.mkService (Props.ecsCluster props) taskDefinition None.

End Synthetics.

(** The configuration of the later class that stands for a configuration of
    the earlier one. *)
Definition upgradeDaemonProps (props : Ec2.DaemonV1.t) : Ec2.Daemon.t :=
  {| Ec2.Daemon.ecsCluster := Ec2.DaemonV1.ecsCluster props;
     Ec2.Daemon.datadogApiKeySecret :=
       Ec2.fromSecretsManager (Ec2.DaemonV1.datadogApiKeySecret props);
     Ec2.Daemon.datadogSite := Ec2.DaemonV1.datadogSite props;
     Ec2.Daemon.logs :=
       Some (Ec2.Logs.mk
               (Some (negb (Js.truthyBool (Ec2.DaemonV1.logsDisabled props))))
               None (Some true));
     Ec2.Daemon.cpu := None;
     Ec2.Daemon.memoryLimitMiB := None;
     Ec2.Daemon.image := None;
     Ec2.Daemon.imageTag := None;
     Ec2.Daemon.logToCloudWatch := Some true;
     Ec2.Daemon.disableHealthcheck := None |}.

(** The mount points of a task's containers and its volumes name the same
    volumes, each once. *)
Definition mountsMatchVolumes (t : Ec2.TaskDefinition) : Prop :=
  let mounted := Ec2.sourceVolume <$> (Ec2.containers t ≫= Ec2.mountPoints) in
  let declared := Ec2.name <$> Ec2.volumes t in
  NoDup mounted ∧ NoDup declared ∧ ∀ v, v ∈ mounted ↔ v ∈ declared.

(** * Properties *)

(** ** Numbers as strings *)

Lemma toNumber_exact z : 0 ≤ z < 2 ^ 53 → Js.toNumber z = Some z.
Proof.
  intros [Hz Hlt]. unfold Js.toNumber.
  assert (Z.log2 z - 52 ≤ 0) as Hexp.
  { destruct (decide (z = 0)) as [->|Hne]; [done|].
    assert (Z.log2 z < 53); [|lia]. apply Z.log2_lt_pow2; lia. }
  by rewrite (proj2 (Z.leb_le _ _) Hexp).
Qed.

Lemma toNumber_beyond z y : 2 ^ 53 ≤ z → Js.toNumber z = Some y → 2 ^ 53 ≤ y.
Proof.
  intros Hz. unfold Js.toNumber.
  assert (53 ≤ Z.log2 z) as Hlog by (apply Z.log2_le_pow2; lia).
  set (exponent := Z.log2 z - 52).
  assert (0 < exponent) as Hexp by (unfold exponent; lia).
  rewrite (proj2 (Z.leb_gt _ _) Hexp).
  set (significand := Z.shiftr z exponent).
  assert (2 ^ 52 ≤ significand) as Hsig.
  { unfold significand. rewrite Z.shiftr_div_pow2 by lia.
    apply Z.div_le_lower_bound; [apply Z.pow_pos_nonneg; lia|].
    rewrite <- Z.pow_add_r by lia.
    replace (exponent + 52) with (Z.log2 z) by (unfold exponent; lia).
    apply Z.log2_spec. lia. }
  assert (2 ≤ 2 ^ exponent) as Hpow.
  { change 2 with (2 ^ 1) at 1. apply Z.pow_le_mono_r; lia. }
  intros Hy. case_match; [done|]. injection Hy as <-.
  rewrite Z.shiftl_mul_pow2 by lia.
  transitivity (2 ^ 52 * 2); [done|].
  apply Z.mul_le_mono_nonneg; [done| |lia..].
  destruct (_ || _); lia.
Qed.

Lemma shortest_unfold x e :
  Js.shortest x e =
  let power := 10 ^ Z.of_nat e in
  let below := x / power * power in
  let above := below + power in
  let belowFits := (0 <? below) && Js.readsBackAs x below in
  let aboveFits := Js.readsBackAs x above in
  if belowFits && aboveFits then
    if x - below <? above - x then below
    else if above - x <? x - below then above
    else if Z.even (below / power) then below else above
  else if belowFits then below
  else if aboveFits then above
  else match e with
       | O => x
       | S e' => Js.shortest x e'
       end.
Proof. by destruct e. Qed.

Lemma shortest_exact x e : 0 < x < 2 ^ 53 → Js.shortest x e = x.
Proof.
  intros Hx. induction e as [|e IH]; rewrite shortest_unfold; cbv zeta.
  all: set (power := 10 ^ Z.of_nat _).
  all: assert (0 < power) as Hpower by (apply Z.pow_pos_nonneg; lia).
  all: set (below := x / power * power).
  all: assert (below ≤ x < below + power) as Hbelow
    by (unfold below; pose proof (Z.mul_div_le x power Hpower);
        pose proof (Z.mul_succ_div_gt x power Hpower); lia).
  all: assert (Js.readsBackAs x (below + power) = false) as ->
    by (unfold Js.readsBackAs;
        destruct (Js.toNumber (below + power)) as [y|] eqn:Hy; [|done];
        apply Z.eqb_neq; destruct (decide (below + power < 2 ^ 53));
        [rewrite toNumber_exact in Hy by lia; injection Hy; lia
        |apply toNumber_beyond in Hy; lia]).
  all: rewrite andb_false_r.
  all: destruct ((0 <? below) && Js.readsBackAs x below) eqn:Hfits; [|done].
  all: apply andb_true_iff in Hfits as [Hpos%Z.ltb_lt Hfits].
  all: unfold Js.readsBackAs in Hfits; rewrite toNumber_exact in Hfits by lia.
  all: by apply Z.eqb_eq in Hfits.
Qed.

(** On the safe integers, those below 2^53 in absolute value, [String(n)]
    is the decimal notation of [n]: every port number is one of them. *)
Lemma String_safe_integer n : Z.abs n < 2 ^ 53 → Js.String_ n = pretty n.
Proof.
  intros Hn. unfold Js.String_.
  destruct (Z.eqb_spec n 0) as [->|Hne]; [done|].
  rewrite toNumber_exact by lia.
  rewrite shortest_exact by lia.
  assert ((Z.abs n <? 10 ^ 21) = true) as -> by (apply Z.ltb_lt; lia).
  destruct n as [|p|p]; [done..|].
  reflexivity.
Qed.

(** Beyond them [String] rounds to the Number first, prints the shortest
    decimal that reads back as it, and switches to the exponent notation at
    1e21. *)
Example String_of_ports :
  Js.String_ 8126 = "8126" ∧ Js.String_ 0 = "0" ∧ Js.String_ (-1) = "-1".
Proof. by vm_compute. Qed.

Example String_beyond_safe_integers :
  Js.String_ (2 ^ 53 + 1) = "9007199254740992"
  ∧ Js.String_ (2 ^ 60) = "1152921504606847000"
  ∧ Js.String_ (10 ^ 21 - 1) = "1e+21"
  ∧ Js.String_ (10 ^ 21) = "1e+21"
  ∧ Js.String_ (-(15 * 10 ^ 20)) = "-1.5e+21"
  ∧ Js.String_ (2 ^ 70) = "1.1805916207174113e+21"
  ∧ Js.String_ (2 ^ 1024) = "Infinity".
Proof. by vm_compute. Qed.

(** ** Running computations *)

Lemma run_bind {A B} (m : Build A) (f : A → Build B) t :
  (m ≫= f) t =
  match m t with
  | (t', Normal a) => f a t'
  | (t', Throw e) => (t', Throw e)
  end.
Proof. reflexivity. Qed.

Lemma taskAfter_bind {A B} (m : Build A) (f : A → Build B) t :
  taskAfter (m ≫= f) t =
  match completion m t with
  | Normal a => taskAfter (f a) (taskAfter m t)
  | Throw _ => taskAfter m t
  end.
Proof.
  unfold taskAfter, completion. rewrite run_bind.
  destruct (m t) as [t' [a|e]]; reflexivity.
Qed.

(** ** The frame of a computation *)

Lemma preserves_refl touched written t : preserves touched written t t.
Proof. intros i c Hc. exists c. auto. Qed.

Lemma preserves_trans touched written t1 t2 t3 :
  preserves touched written t1 t2 →
  preserves touched written t2 t3 →
  preserves touched written t1 t3.
Proof.
  intros H12 H23 i c Hc.
  destruct (H12 i c Hc) as (c2 & Hc2 & Hn2 & Hsame2 & Henv2).
  destruct (H23 i c2 Hc2) as (c3 & Hc3 & Hn3 & Hsame3 & Henv3).
  exists c3. split_and!; [done|congruence| |].
  - intros Hout. rewrite Hsame3, Hsame2; [done|done|]. by rewrite Hsame2.
  - intros k Hk. by rewrite Henv3, Henv2.
Qed.

Lemma preserves_weaken touched written touched' written' t t' :
  touched ⊆ touched' → written ⊆ written' →
  preserves touched written t t' → preserves touched' written' t t'.
Proof.
  intros Ht Hw H i c Hc. destruct (H i c Hc) as (c' & ? & ? & Hsame & Henv).
  exists c'. split_and!; [done..| |]; intros; [apply Hsame|apply Henv]; set_solver.
Qed.

Lemma Preserving_ret {A} touched written (a : A) :
  Preserving touched written (mret a : Build A).
Proof. intros t. apply preserves_refl. Qed.

Lemma Preserving_bind {A B} touched written (m : Build A) (f : A → Build B) :
  Preserving touched written m →
  (∀ a, Preserving touched written (f a)) →
  Preserving touched written (m ≫= f).
Proof.
  intros Hm Hf t. rewrite taskAfter_bind.
  destruct (completion m t) as [a|e]; [|apply Hm].
  eapply preserves_trans; [apply Hm|apply Hf].
Qed.

Lemma Preserving_when touched written c (m : Build unit) :
  Preserving touched written m → Preserving touched written (when c m).
Proof. destruct c; [done|]. intros _. apply Preserving_ret. Qed.

Lemma Preserving_forOf {A} touched written (xs : list A) (body : A → Build unit) :
  (∀ x, x ∈ xs → Preserving touched written (body x)) →
  Preserving touched written (forOf xs body).
Proof.
  induction xs as [|x xs IH]; intros Hbody; simpl.
  - apply Preserving_ret.
  - apply Preserving_bind; [apply Hbody; set_solver|].
    intros _. apply IH. intros y Hy. apply Hbody. set_solver.
Qed.

Lemma Preserving_addContainer touched written name o :
  Preserving touched written (addContainer name o).
Proof.
  intros t i c Hc. unfold taskAfter, addContainer.
  destruct (findIndex name (containers t)); simpl; [by exists c|].
  exists c. split_and!; [|done..]. by apply lookup_app_l_Some.
Qed.

Lemma Preserving_addFirelensLogRouter touched written name o :
  Preserving touched written (addFirelensLogRouter name o).
Proof.
  intros t. unfold addFirelensLogRouter, taskAfter.
  destruct (existsb _ _); [apply preserves_refl|].
  apply Preserving_addContainer.
Qed.

Lemma findIndex_Some name cs i :
  findIndex name cs = Some i →
  ∃ c, cs !! i = Some c ∧ containerName c = name.
Proof.
  unfold findIndex. intros ([j c] & Hfind & ->)%fmap_Some.
  apply list_find_Some in Hfind as (? & ? & _). eauto.
Qed.

Lemma findIndex_None name cs :
  findIndex name cs = None ↔ name ∉ containerName <$> cs.
Proof.
  unfold findIndex. rewrite fmap_None, list_find_None, Forall_forall.
  rewrite list_elem_of_fmap. naive_solver.
Qed.

Lemma preserves_alter touched written (f : ContainerDefinition → ContainerDefinition) i t :
  (∀ c, containerName (f c) = containerName c) →
  (∀ c k, k ∉ written → environment (f c) !! k = environment c !! k) →
  (∀ c, containers t !! i = Some c → containerName c ∈ touched) →
  preserves touched written t (mkTask (alter f i (containers t))).
Proof.
  intros Hname Henv Hin j c Hc. simpl.
  destruct (decide (i = j)) as [->|Hne].
  - exists (f c). rewrite list_lookup_alter_eq, Hc. split_and!; auto.
    intros Hout. destruct Hout. eauto.
  - exists c. by rewrite list_lookup_alter_ne.
Qed.

Lemma preserves_addEnvironment touched written i key value t :
  key ∈ written →
  (∀ c, containers t !! i = Some c → containerName c ∈ touched) →
  preserves touched written t (taskAfter (addEnvironment i key value) t).
Proof.
  intros Hkey Hin. apply preserves_alter; [done| |done].
  intros c k Hk. simpl. apply lookup_insert_ne. set_solver.
Qed.

Lemma preserves_setLogDriverConfig touched written i cfg t :
  (∀ c, containers t !! i = Some c → containerName c ∈ touched) →
  preserves touched written t (taskAfter (setLogDriverConfig i cfg) t).
Proof. intros Hin. by apply preserves_alter. Qed.

(** ** The loops over the snapshot *)

Lemma addEnvironments_name kvs c :
  containerName (addEnvironments kvs c) = containerName c.
Proof. reflexivity. Qed.

Lemma lookup_writes_ne (kvs : list (string * string)) (env : gmap string string) k :
  k ∉ kvs.*1 →
  foldl (λ e kv, <[kv.1 := kv.2]> e) env kvs !! k = env !! k.
Proof.
  revert env. induction kvs as [|[k' v] kvs IH]; intros env Hk; simpl; [done|].
  rewrite IH by set_solver. apply lookup_insert_ne. set_solver.
Qed.

Lemma addEnvironments_lookup_ne kvs c k :
  k ∉ kvs.*1 →
  environment (addEnvironments kvs c) !! k = environment c !! k.
Proof. apply lookup_writes_ne. Qed.

Lemma apmBody_run props i t :
  (addEnvironment i
     (default "DD_TRACE_ENABLED"
        (((Props.agent props ≫= Agent.apm) ≫= Apm.applicationEnvVars)
           ≫= ApmEnv.apmTraceEnabledEnvVarName)) "true" ;;
   addEnvironment i
     (default "DD_AGENT_HOST"
        (((Props.agent props ≫= Agent.apm) ≫= Apm.applicationEnvVars)
           ≫= ApmEnv.apmHostEnvVarName)) "localhost" ;;
   addEnvironment i
     (default "DD_TRACE_AGENT_PORT"
        (((Props.agent props ≫= Agent.apm) ≫= Apm.applicationEnvVars)
           ≫= ApmEnv.apmPortEnvVarName)) (apmPort props)) t
  = (mkTask (alter (addEnvironments (apmWrites props)) i (containers t)), Normal ()).
Proof.
  unfold addEnvironment. repeat (rewrite run_bind; simpl).
  rewrite !list_alter_alter_eq. reflexivity.
Qed.

Lemma statsdBody_run props i t :
  (addEnvironment i
     (default "STATSD_HOST"
        (((Props.agent props ≫= Agent.statsd) ≫= Statsd.applicationEnvVars)
           ≫= StatsdEnv.statsdHostEnvVarName)) "localhost" ;;
   addEnvironment i
     (default "STATSD_PORT"
        (((Props.agent props ≫= Agent.statsd) ≫= Statsd.applicationEnvVars)
           ≫= StatsdEnv.statsdPortEnvVarName)) (statsdPort props)) t
  = (mkTask (alter (addEnvironments (statsdWrites props)) i (containers t)), Normal ()).
Proof.
  unfold addEnvironment. repeat (rewrite run_bind; simpl).
  rewrite !list_alter_alter_eq. reflexivity.
Qed.

Lemma apmWrites_names props : (apmWrites props).*1 = apmEnvVarNames props.
Proof. reflexivity. Qed.

Lemma statsdWrites_names props : (statsdWrites props).*1 = statsdEnvVarNames props.
Proof. reflexivity. Qed.

Lemma Preserving_found touched written name (k : option nat → Build unit) :
  (∀ i t, findIndex name (containers t) = Some i →
          preserves touched written t (taskAfter (k (Some i)) t)) →
  (∀ t, preserves touched written t (taskAfter (k None) t)) →
  Preserving touched written (findContainer name ≫= k).
Proof.
  intros Hsome Hnone t. rewrite taskAfter_bind. unfold completion, taskAfter at 2 3.
  simpl. destruct (findIndex name (containers t)) eqn:Hfind; auto.
Qed.

Lemma found_touched (touched : list string) name i t :
  name ∈ touched →
  findIndex name (containers t) = Some i →
  ∀ c, containers t !! i = Some c → containerName c ∈ touched.
Proof.
  intros Hin (c' & Hc' & <-)%findIndex_Some c Hc. congruence.
Qed.

Lemma Preserving_propagateApmEnvVars props names :
  Preserving names (apmEnvVarNames props) (propagateApmEnvVars props names).
Proof.
  apply Preserving_forOf. intros name Hname.
  apply Preserving_found; [|intros; apply preserves_refl].
  intros i t Hfind. unfold taskAfter. rewrite apmBody_run. simpl.
  apply preserves_alter; [done| |by eapply found_touched].
  intros c k Hk. apply addEnvironments_lookup_ne. by rewrite apmWrites_names.
Qed.

Lemma Preserving_propagateStatsdEnvVars props names :
  Preserving names (statsdEnvVarNames props) (propagateStatsdEnvVars props names).
Proof.
  apply Preserving_forOf. intros name Hname.
  apply Preserving_found; [|intros; apply preserves_refl].
  intros i t Hfind. unfold taskAfter. rewrite statsdBody_run. simpl.
  apply preserves_alter; [done| |by eapply found_touched].
  intros c k Hk. apply addEnvironments_lookup_ne. by rewrite statsdWrites_names.
Qed.

Lemma Preserving_bindFirelensLogDriver props names :
  Preserving names [] (bindFirelensLogDriver props names).
Proof.
  apply Preserving_forOf. intros name Hname.
  apply Preserving_found; [|intros; apply preserves_refl].
  intros i t Hfind. apply preserves_setLogDriverConfig. by eapply found_touched.
Qed.

(** ** A loop over a snapshot that is still valid *)

Lemma findIndex_middle (done todo : list ContainerDefinition) c :
  containerName c ∉ containerName <$> done →
  findIndex (containerName c) (done ++ c :: todo) = Some (length done).
Proof.
  intros Hout%findIndex_None. unfold findIndex in *.
  apply fmap_None in Hout. rewrite list_find_app_r by done.
  simpl. rewrite decide_True by done. reflexivity.
Qed.

Lemma forOf_snapshot (f : ContainerDefinition → ContainerDefinition)
    (body : string → Build unit) :
  (∀ c, containerName (f c) = containerName c) →
  (∀ name t i, findIndex name (containers t) = Some i →
     body name t = (mkTask (alter f i (containers t)), Normal ())) →
  ∀ todo done rest : list ContainerDefinition,
    NoDup (containerName <$> (done ++ todo)%list) →
    forOf (containerName <$> todo) body (mkTask (done ++ todo ++ rest))
    = (mkTask (done ++ (f <$> todo) ++ rest), Normal ()).
Proof.
  intros Hname Hbody. induction todo as [|c todo IH]; intros done rest Hnodup.
  - reflexivity.
  - rewrite fmap_app, fmap_cons in Hnodup.
    apply NoDup_app in Hnodup as (Hdone & Hdisj & Htodo).
    apply NoDup_cons in Htodo as (Hc & Htodo).
    assert (containerName c ∉ containerName <$> done) as Hfresh.
    { intros Hin. apply (Hdisj _ Hin). left. }
    simpl. rewrite run_bind.
    rewrite (Hbody _ _ (length done)) by (by apply findIndex_middle).
    simpl. rewrite alter_app_r_alt, Nat.sub_diag by done. simpl.
    specialize (IH (done ++ [f c])%list rest).
    rewrite <- !app_assoc in IH. simpl in IH. apply IH.
    rewrite !fmap_app. simpl. rewrite Hname.
    apply NoDup_app. split_and!; [done| |by apply NoDup_cons].
    intros x Hx. by apply Hdisj.
Qed.

Lemma propagateApmEnvVars_snapshot props cs rest :
  NoDup (containerName <$> cs) →
  propagateApmEnvVars props (containerName <$> cs) (mkTask (cs ++ rest))
  = (mkTask ((addEnvironments (apmWrites props) <$> cs) ++ rest), Normal ()).
Proof.
  intros Hnodup. unfold propagateApmEnvVars.
  apply (forOf_snapshot (addEnvironments (apmWrites props)) _
           (addEnvironments_name _)) with (done := []); [|done].
  intros name t i Hfind. rewrite run_bind. unfold findContainer. rewrite Hfind.
  apply apmBody_run.
Qed.

Lemma bindFirelensLogDriver_snapshot props cs rest :
  NoDup (containerName <$> cs) →
  bindFirelensLogDriver props (containerName <$> cs) (mkTask (cs ++ rest))
  = (mkTask ((withLogDriverConfig (Some (firelensLogDriver props)) <$> cs) ++ rest),
     Normal ()).
Proof.
  intros Hnodup. unfold bindFirelensLogDriver.
  apply (forOf_snapshot (withLogDriverConfig (Some (firelensLogDriver props))))
    with (done := []); [done| |done].
  intros name t i Hfind. rewrite run_bind. unfold findContainer. by rewrite Hfind.
Qed.

(** What is kept of a task is a prefix of what it has become. *)
Lemma preserves_prefix touched written t t' :
  preserves touched written t t' →
  ∃ cs' rest, containers t' = (cs' ++ rest)%list
              ∧ containerName <$> cs' = containerNames t.
Proof.
  intros Hpres.
  exists (take (length (containers t)) (containers t')),
         (drop (length (containers t)) (containers t')).
  split; [by rewrite take_drop|].
  apply list_eq. intros i. unfold containerNames. rewrite !list_lookup_fmap.
  destruct (containers t !! i) as [c|] eqn:Hc.
  - destruct (Hpres i c Hc) as (c' & Hc' & Hname & _).
    rewrite lookup_take_lt by (by eapply lookup_lt_Some).
    rewrite Hc'. simpl. by rewrite Hname.
  - apply lookup_ge_None in Hc. by rewrite lookup_take_ge.
Qed.

(** ** The stages of the helper *)

Lemma Preserving_statsdStage props names :
  Js.truthyBool (Props.agent props ≫= Agent.enabled) = true →
  Preserving names (propagatedStatsdEnvVarNames props) (statsdStage props names).
Proof.
  intros Hon. unfold statsdStage, propagatedStatsdEnvVarNames. cbv zeta.
  rewrite Hon, andb_true_l.
  destruct (_ && _); [apply Preserving_propagateStatsdEnvVars|apply Preserving_ret].
Qed.

Lemma Preserving_firelensStage props names written :
  Preserving names written (firelensStage props names).
Proof.
  apply Preserving_when.
  apply Preserving_bind; [apply Preserving_addFirelensLogRouter|intros _].
  intros t. eapply preserves_weaken;
    [done| |apply Preserving_bindFirelensLogDriver]. set_solver.
Qed.

(** With the agent disabled only the Firelens stage runs. *)
Lemma run_agent_disabled props t :
  Js.truthyBool (Props.agent props ≫= Agent.enabled) = false →
  addDatadogToFargateTask props t = firelensStage props (containerNames t) t.
Proof.
  intros Hoff. unfold addDatadogToFargateTask. rewrite run_bind. simpl.
  rewrite Hoff. reflexivity.
Qed.

(** With the agent enabled and its name taken, the helper stops at once. *)
Lemma run_agent_duplicate props t :
  Js.truthyBool (Props.agent props ≫= Agent.enabled) = true →
  "datadog-agent" ∈ containerNames t →
  addDatadogToFargateTask props t = (t, Throw (DuplicateContainerName "datadog-agent")).
Proof.
  intros Hon Hin. unfold addDatadogToFargateTask. rewrite run_bind. simpl.
  rewrite Hon. simpl. repeat (rewrite run_bind; simpl). unfold addContainer.
  destruct (findIndex "datadog-agent" (containers t)) eqn:Hfind; [done|].
  by apply findIndex_None in Hfind.
Qed.

(** With the agent enabled and its name free, the agent container goes
    last and the three stages run on the snapshot. *)
Lemma run_agent_added props t :
  Js.truthyBool (Props.agent props ≫= Agent.enabled) = true →
  "datadog-agent" ∉ containerNames t →
  addDatadogToFargateTask props t
  = (apmStage props (containerNames t) ;;
     statsdStage props (containerNames t) ;;
     firelensStage props (containerNames t))
      (mkTask (containers t
                 ++ [newContainer "datadog-agent" (agentContainerOptions props)])).
Proof.
  intros Hon Hout. apply findIndex_None in Hout.
  unfold addDatadogToFargateTask. rewrite run_bind. simpl.
  rewrite Hon. simpl. repeat (rewrite run_bind; simpl). unfold addContainer.
  rewrite Hout. fold (containerNames t).
  fold (apmStage props (containerNames t)).
  fold (statsdStage props (containerNames t)).
  fold (firelensStage props (containerNames t)).
  rewrite !run_bind.
  destruct (apmStage _ _ _) as [t2 [[]|e]]; [|done].
  rewrite !run_bind.
  destruct (statsdStage _ _ _) as [t3 [[]|e]]; done.
Qed.

Lemma preserves_hasContainer touched written t t' name :
  preserves touched written t t' →
  name ∈ containerNames t → name ∈ containerNames t'.
Proof.
  intros Hpres (c & -> & (i & Hi)%list_elem_of_lookup)%list_elem_of_fmap.
  destruct (Hpres i c Hi) as (c' & Hc' & <- & _).
  apply list_elem_of_fmap. exists c'. split; [done|].
  by eapply list_elem_of_lookup_2.
Qed.

Lemma Preserving_afterAgent props names :
  Js.truthyBool (Props.agent props ≫= Agent.enabled) = true →
  Preserving names
    (propagatedApmEnvVarNames props ++ propagatedStatsdEnvVarNames props)
    (apmStage props names ;; statsdStage props names ;; firelensStage props names).
Proof.
  intros Hon. apply Preserving_bind; [|intros _; apply Preserving_bind; [|intros _]].
  - unfold apmStage, propagatedApmEnvVarNames. cbv zeta. rewrite Hon, andb_true_l.
    destruct (_ && _); [|apply Preserving_ret]. simpl.
    intros t. eapply preserves_weaken;
      [done| |apply Preserving_propagateApmEnvVars]. set_solver.
  - intros t. eapply preserves_weaken;
      [done| |by apply Preserving_statsdStage]. set_solver.
  - apply Preserving_firelensStage.
Qed.

(** Whatever the configuration and however the call completes, a container
    of the task stays where it was under its name, and its environment
    changes at most under the names the two propagation loops write. *)
Lemma addDatadogToFargateTask_preserves props t :
  preserves (containerNames t)
    (propagatedApmEnvVarNames props ++ propagatedStatsdEnvVarNames props)
    t (taskAfter (addDatadogToFargateTask props) t).
Proof.
  unfold taskAfter.
  destruct (Js.truthyBool (Props.agent props ≫= Agent.enabled)) eqn:Hon.
  - destruct (decide ("datadog-agent" ∈ containerNames t)) as [Hin|Hout].
    + rewrite run_agent_duplicate by done. apply preserves_refl.
    + rewrite run_agent_added by done.
      eapply preserves_trans; [|by apply Preserving_afterAgent].
      intros i c Hc. exists c. split_and!; [|done..]. by apply lookup_app_l_Some.
  - rewrite run_agent_disabled by done. apply Preserving_firelensStage.
Qed.

(** The agent container, once added, is never written to. *)
Lemma agent_container_added props t :
  Js.truthyBool (Props.agent props ≫= Agent.enabled) = true →
  "datadog-agent" ∉ containerNames t →
  containers (taskAfter (addDatadogToFargateTask props) t) !! length (containers t)
  = Some (newContainer "datadog-agent" (agentContainerOptions props)).
Proof.
  intros Hon Hout. unfold taskAfter. rewrite run_agent_added by done.
  set (agent := newContainer _ _).
  destruct (Preserving_afterAgent props (containerNames t) Hon
              (mkTask (containers t ++ [agent])) (length (containers t)) agent)
    as (c' & Hc' & _ & Hsame & _).
  { simpl. by apply list_lookup_middle. }
  rewrite Hsame in Hc'; done.
Qed.

Lemma firelensStage_binds props t0 t W :
  Props.fireLensLogging props ≫= Firelens.enabled = Some true →
  NoDup (containerNames t0) →
  preserves (containerNames t0) W t0 t →
  completion (firelensStage props (containerNames t0)) t = Normal () →
  ∀ i c, containers t0 !! i = Some c →
    ∃ c', containers (taskAfter (firelensStage props (containerNames t0)) t) !! i = Some c'
          ∧ containerName c' = containerName c
          ∧ logDriverConfig c' = Some (firelensLogDriver props).
Proof.
  intros Hon Hnodup Hpres Hdone i c Hc.
  destruct (preserves_prefix _ _ _ _ Hpres) as (cs' & rest & Ht & Hnames).
  revert Hdone. unfold completion, taskAfter, firelensStage. rewrite Hon. simpl.
  rewrite run_bind. unfold addFirelensLogRouter, addContainer.
  destruct (existsb _ _); [done|].
  destruct (findIndex "log_router" (containers t)); [done|].
  rewrite Ht, <- Hnames, <- app_assoc.
  rewrite bindFirelensLogDriver_snapshot by (by rewrite Hnames).
  intros _. simpl.
  assert (∃ c3, cs' !! i = Some c3 ∧ containerName c3 = containerName c)
    as (c3 & Hc3 & Hname).
  { assert ((containerName <$> cs') !! i = Some (containerName c)) as Hi.
    { rewrite Hnames. unfold containerNames. by rewrite list_lookup_fmap, Hc. }
    rewrite list_lookup_fmap in Hi. destruct (cs' !! i) as [c3|]; [|done].
    exists c3. split; [done|]. by injection Hi. }
  exists (withLogDriverConfig (Some (firelensLogDriver props)) c3).
  split_and!; [|done..].
  apply lookup_app_l_Some. by rewrite list_lookup_fmap, Hc3.
Qed.

Lemma Preserving_apmStage props names :
  Preserving names (apmEnvVarNames props) (apmStage props names).
Proof. apply Preserving_when, Preserving_propagateApmEnvVars. Qed.

Lemma Preserving_statsdStage_names props names :
  Preserving names (statsdEnvVarNames props) (statsdStage props names).
Proof. apply Preserving_when, Preserving_propagateStatsdEnvVars. Qed.

(** When the helper returns normally with Firelens logging enabled, every
    container the task had carries the Firelens log driver. *)
Lemma firelens_driver_bound props t :
  Props.fireLensLogging props ≫= Firelens.enabled = Some true →
  NoDup (containerNames t) →
  completion (addDatadogToFargateTask props) t = Normal () →
  ∀ i c, containers t !! i = Some c →
    ∃ c', containers (taskAfter (addDatadogToFargateTask props) t) !! i = Some c'
          ∧ containerName c' = containerName c
          ∧ logDriverConfig c' = Some (firelensLogDriver props).
Proof.
  intros Hon Hnodup. unfold completion, taskAfter.
  set (W := (apmEnvVarNames props ++ statsdEnvVarNames props)%list).
  destruct (Js.truthyBool (Props.agent props ≫= Agent.enabled)) eqn:Hagent.
  - destruct (decide ("datadog-agent" ∈ containerNames t)) as [Hin|Hout].
    { by rewrite run_agent_duplicate. }
    rewrite run_agent_added by done.
    set (t1 := mkTask _).
    assert (preserves (containerNames t) W t t1) as H01.
    { intros i c Hc. exists c. split_and!; [|done..]. by apply lookup_app_l_Some. }
    pose proof (Preserving_apmStage props (containerNames t) t1) as H12.
    unfold taskAfter in H12. rewrite run_bind.
    destruct (apmStage props (containerNames t) t1) as [t2 [[]|e]]; [|done].
    pose proof (Preserving_statsdStage_names props (containerNames t) t2) as H23.
    unfold taskAfter in H23. rewrite run_bind.
    destruct (statsdStage props (containerNames t) t2) as [t3 [[]|e]]; [|done].
    simpl in H12, H23. intros Hdone.
    apply (firelensStage_binds props t t3 W); [done..| |done].
    eapply preserves_trans; [exact H01|].
    eapply preserves_trans; (eapply preserves_weaken; [done| |eassumption]);
      unfold W; set_solver.
  - rewrite run_agent_disabled by done. intros Hdone.
    apply (firelensStage_binds props t t W); [done..|apply preserves_refl|done].
Qed.

(** ** Flattening of tags *)

Lemma object_snoc {V} (entries : list (string * V)) k v :
  Js.object (entries ++ [(k, v)]) !! k = Some v.
Proof. unfold Js.object. rewrite foldl_app. simpl. apply lookup_insert_eq. Qed.

Lemma agent_DD_TAGS props T :
  Props.agent props ≫= Agent.tags = Some T →
  Options.environment (agentContainerOptions props) !! "DD_TAGS"
  = Some (formatTags T " ").
Proof.
  intros HT. unfold agentContainerOptions. cbn [Options.environment]. rewrite HT.
  rewrite !app_assoc. apply object_snoc.
Qed.

Lemma firelens_dd_tags props T :
  Props.fireLensLogging props ≫= Firelens.tags = Some T →
  firelensOptions props !! "dd_tags" = Some (formatTags T ",").
Proof.
  intros HT. unfold firelensOptions. rewrite HT.
  rewrite !app_assoc. apply object_snoc.
Qed.

Lemma append_inv_head (s u v : string) : s ++ u = s ++ v → u = v.
Proof. induction s as [|a s IH]; simpl; [done|]. intros [=]. auto. Qed.

Lemma concat_cons2 sep (x y : string) (xs : list string) :
  String.concat sep (x :: y :: xs) = x ++ sep ++ String.concat sep (y :: xs).
Proof. reflexivity. Qed.

Lemma join_separators_differ (xs : list string) :
  Js.join " " xs ≠ Js.join "," xs ↔ (2 ≤ length xs)%nat.
Proof.
  unfold Js.join. destruct xs as [|x [|y xs]]; simpl length.
  - split; [done|lia].
  - split; [done|lia].
  - split; [lia|]. intros _. rewrite !concat_cons2.
    intros Heq%append_inv_head. discriminate.
Qed.

(** ** The environment of the agent container *)

Lemma agent_environment_keys props k :
  k ∉ ["ECS_FARGATE"; "DD_SITE"; "DD_APM_ENABLED"; "DD_APM_RECEIVER_PORT";
       "DD_USE_DOGSTATSD"; "DD_DOGSTATSD_PORT"; "DD_TAGS"] →
  Options.environment (agentContainerOptions props) !! k = None.
Proof.
  intros Hk. unfold agentContainerOptions. cbn [Options.environment].
  unfold Js.object.
  destruct (Js.truthyBool _), (Js.truthyBool _), (Props.agent props ≫= Agent.tags);
    simpl; rewrite ?lookup_insert_ne by set_solver; apply lookup_empty.
Qed.

(** ** A snapshot that has gone stale *)

Lemma propagateApmEnvVars_skips_missing props names t :
  (∀ name, name ∈ names → name ∉ containerNames t) →
  propagateApmEnvVars props names t = (t, Normal ()).
Proof.
  unfold propagateApmEnvVars.
  induction names as [|name names IH]; intros Hmissing; simpl; [done|].
  rewrite !run_bind. unfold findContainer.
  rewrite (proj2 (findIndex_None name (containers t))) by (apply Hmissing; left).
  apply IH. intros ??. apply Hmissing. by right.
Qed.

Lemma propagateStatsdEnvVars_skips_missing props names t :
  (∀ name, name ∈ names → name ∉ containerNames t) →
  propagateStatsdEnvVars props names t = (t, Normal ()).
Proof.
  unfold propagateStatsdEnvVars.
  induction names as [|name names IH]; intros Hmissing; simpl; [done|].
  rewrite !run_bind. unfold findContainer.
  rewrite (proj2 (findIndex_None name (containers t))) by (apply Hmissing; left).
  apply IH. intros ??. apply Hmissing. by right.
Qed.

Lemma bindFirelensLogDriver_throws_on_missing props name names t :
  name ∉ containerNames t →
  bindFirelensLogDriver props (name :: names) t = (t, Throw TypeError).
Proof.
  intros Hmissing. unfold bindFirelensLogDriver. simpl.
  rewrite !run_bind. unfold findContainer.
  by rewrite (proj2 (findIndex_None name (containers t))).
Qed.

(** * The claims *)

(** C1, as stated, fails when [agent.enabled] is unset: the propagation
    sits inside the branch that adds the agent, so with [agent.apm.enabled]
    true and [doNotSet] unset the task is left as it was, and the container
    it had does not get DD_TRACE_ENABLED. *)
Lemma apm_propagation_counterexample :
  let props := propsWith (Some (agentWith None None None (Some apmOn) None)) None in
  let t' := taskAfter (addDatadogToFargateTask props) webTask in
  (Props.agent props ≫= Agent.apm) ≫= Apm.enabled = Some true
  ∧ ((Props.agent props ≫= Agent.apm) ≫= Apm.applicationEnvVars) ≫= ApmEnv.doNotSet = None
  ∧ containers webTask !! 0%nat = Some web
  ∧ t' = webTask
  ∧ ¬ ∃ c', containers t' !! 0%nat = Some c'
            ∧ environment c' !! "DD_TRACE_ENABLED" = Some "true".
Proof.
  intros props t'. split_and!; [reflexivity..|].
  intros (c' & Hc' & Henv). vm_compute in Hc'.
  injection Hc' as <-. vm_compute in Henv. discriminate.
Qed.

(** C1, amended. On a task with unique container names and none called
    "datadog-agent", with [agent.enabled] and [agent.apm.enabled] true,
    [doNotSet] unset or false, the three variable names left at their
    defaults and the StatsD loop writing under none of them: every container
    present before the call has afterwards DD_TRACE_ENABLED "true",
    DD_AGENT_HOST "localhost" and DD_TRACE_AGENT_PORT the stringified port
    ("8126" when none is configured); its other variables are as before,
    apart from those the StatsD loop writes; and the "datadog-agent"
    container the call adds has none of the three. *)
Theorem apm_propagation props t :
  NoDup (containerNames t) →
  "datadog-agent" ∉ containerNames t →
  Props.agent props ≫= Agent.enabled = Some true →
  (Props.agent props ≫= Agent.apm) ≫= Apm.enabled = Some true →
  ((Props.agent props ≫= Agent.apm) ≫= Apm.applicationEnvVars) ≫= ApmEnv.doNotSet
    ≠ Some true →
  apmEnvVarNames props = ["DD_TRACE_ENABLED"; "DD_AGENT_HOST"; "DD_TRACE_AGENT_PORT"] →
  (∀ k, k ∈ propagatedStatsdEnvVarNames props → k ∉ apmEnvVarNames props) →
  let t' := taskAfter (addDatadogToFargateTask props) t in
  let port :=
    match (Props.agent props ≫= Agent.apm) ≫= Apm.port with
    | Some port => Js.String_ port
    | None => "8126"
    end in
  (∀ i c, containers t !! i = Some c →
     ∃ c', containers t' !! i = Some c'
           ∧ containerName c' = containerName c
           ∧ environment c' !! "DD_TRACE_ENABLED" = Some "true"
           ∧ environment c' !! "DD_AGENT_HOST" = Some "localhost"
           ∧ environment c' !! "DD_TRACE_AGENT_PORT" = Some port
           ∧ ∀ k, k ∉ (apmEnvVarNames props ++ propagatedStatsdEnvVarNames props)%list →
                  environment c' !! k = environment c !! k)
  ∧ ∃ a, containers t' !! length (containers t) = Some a
         ∧ containerName a = "datadog-agent"
         ∧ environment a !! "DD_TRACE_ENABLED" = None
         ∧ environment a !! "DD_AGENT_HOST" = None
         ∧ environment a !! "DD_TRACE_AGENT_PORT" = None.
Proof.
  intros Hnodup Hfree Hagent Hapm HdoNotSet Hnames Hdisjoint t' port.
  assert (Js.truthyBool (Props.agent props ≫= Agent.enabled) = true) as Hon
    by (by rewrite Hagent).
  split.
  - (* the siblings *)
    assert (apmStage props (containerNames t) = propagateApmEnvVars props (containerNames t))
      as Hstage.
    { unfold apmStage. cbv zeta. rewrite Hapm. simpl.
      by destruct ((_ ≫= Apm.applicationEnvVars) ≫= ApmEnv.doNotSet) as [[]|]. }
    set (agent := newContainer "datadog-agent" (agentContainerOptions props)).
    set (t2 := mkTask ((addEnvironments (apmWrites props) <$> containers t) ++ [agent])).
    assert (preserves (containerNames t) (propagatedStatsdEnvVarNames props) t2 t')
      as Hrest.
    { unfold t', taskAfter. rewrite run_agent_added by done. fold agent.
      rewrite run_bind, Hstage. unfold containerNames.
      rewrite (propagateApmEnvVars_snapshot props (containers t) [agent] Hnodup).
      fold t2. fold (containerNames t).
      apply (Preserving_bind _ _ (statsdStage props (containerNames t))).
      - by apply Preserving_statsdStage.
      - intros _. apply Preserving_firelensStage. }
    intros i c Hc.
    destruct (Hrest i (addEnvironments (apmWrites props) c))
      as (c' & Hc' & Hname & _ & Henv).
    { unfold t2. simpl. apply lookup_app_l_Some.
      by rewrite list_lookup_fmap, Hc. }
    assert (apmWrites props
            = [("DD_TRACE_ENABLED", "true"); ("DD_AGENT_HOST", "localhost");
               ("DD_TRACE_AGENT_PORT", port)]) as Hwrites.
    { unfold apmWrites. rewrite Hnames. unfold apmPort, port. simpl.
      by destruct ((_ ≫= Agent.apm) ≫= Apm.port). }
    exists c'. split_and!; [done..| | | |].
    + rewrite Henv by (intros Hin; apply (Hdisjoint _ Hin); rewrite Hnames; set_solver).
      rewrite Hwrites. simpl. by rewrite 2!lookup_insert_ne, lookup_insert_eq.
    + rewrite Henv by (intros Hin; apply (Hdisjoint _ Hin); rewrite Hnames; set_solver).
      rewrite Hwrites. simpl. by rewrite lookup_insert_ne, lookup_insert_eq.
    + rewrite Henv by (intros Hin; apply (Hdisjoint _ Hin); rewrite Hnames; set_solver).
      rewrite Hwrites. simpl. by rewrite lookup_insert_eq.
    + intros k Hk. rewrite Henv by set_solver.
      apply addEnvironments_lookup_ne. rewrite apmWrites_names. set_solver.
  - (* the agent *)
    exists (newContainer "datadog-agent" (agentContainerOptions props)).
    split_and!; [by apply agent_container_added|done|..];
      apply agent_environment_keys; set_solver.
Qed.

Lemma apm_propagation_witness :
  let props :=
    propsWith
      (Some (agentWith (Some true) None None (Some (Apm.mk (Some true) (Some 9126) None))
               (Some (Statsd.mk (Some true) None None))))
      None in
  let t' := taskAfter (addDatadogToFargateTask props) webTask in
  (∀ i c, containers webTask !! i = Some c →
     ∃ c', containers t' !! i = Some c'
           ∧ containerName c' = containerName c
           ∧ environment c' !! "DD_TRACE_ENABLED" = Some "true"
           ∧ environment c' !! "DD_AGENT_HOST" = Some "localhost"
           ∧ environment c' !! "DD_TRACE_AGENT_PORT" = Some "9126"
           ∧ ∀ k, k ∉ ["DD_TRACE_ENABLED"; "DD_AGENT_HOST"; "DD_TRACE_AGENT_PORT";
                       "STATSD_HOST"; "STATSD_PORT"] →
                  environment c' !! k = environment c !! k)
  ∧ ∃ a, containers t' !! 1%nat = Some a
         ∧ containerName a = "datadog-agent"
         ∧ environment a !! "DD_TRACE_ENABLED" = None
         ∧ environment a !! "DD_AGENT_HOST" = None
         ∧ environment a !! "DD_TRACE_AGENT_PORT" = None.
Proof.
  intros props.
  apply (apm_propagation props webTask).
  - compute_done.
  - compute_done.
  - reflexivity.
  - reflexivity.
  - discriminate.
  - reflexivity.
  - intros k Hk. vm_compute in Hk. vm_compute. set_solver.
Defined.

(** Why the amended C1 has each of its premises. *)

(** Two containers under one name: [findContainer] returns the first, and
    the second is never written to. *)
Example unique_names_needed :
  let props := propsWith (Some (agentWith (Some true) None None (Some apmOn) None)) None in
  let t' := taskAfter (addDatadogToFargateTask props) (mkTask [web; web]) in
  (environment <$> containers t' !! 1%nat) ≫= (.!! "DD_TRACE_ENABLED") = None.
Proof. reflexivity. Qed.

(** The agent's name already taken: [addContainer] throws before any
    variable is written. *)
Example free_agent_name_needed :
  let props := propsWith (Some (agentWith (Some true) None None (Some apmOn) None)) None in
  let taken := mkTask [web; withEnvironment ∅ (newContainer "datadog-agent" (agentContainerOptions props))] in
  addDatadogToFargateTask props taken
  = (taken, Throw (DuplicateContainerName "datadog-agent")).
Proof. reflexivity. Qed.

(** An overridden name: the variable is written under the override. *)
Example default_names_needed :
  let vars := ApmEnv.mk None (Some "TRACE_HOST") None None in
  let props :=
    propsWith
      (Some (agentWith (Some true) None None (Some (Apm.mk (Some true) None (Some vars))) None))
      None in
  let t' := taskAfter (addDatadogToFargateTask props) webTask in
  (environment <$> containers t' !! 0%nat) ≫= (.!! "DD_AGENT_HOST") = None
  ∧ (environment <$> containers t' !! 0%nat) ≫= (.!! "TRACE_HOST") = Some "localhost".
Proof. split; reflexivity. Qed.

(** A StatsD name overridden to an APM name: the StatsD loop runs second
    and its value stays. *)
Example distinct_statsd_names_needed :
  let vars := StatsdEnv.mk None None (Some "DD_TRACE_AGENT_PORT") in
  let props :=
    propsWith
      (Some (agentWith (Some true) None None (Some apmOn)
               (Some (Statsd.mk (Some true) None (Some vars)))))
      None in
  let t' := taskAfter (addDatadogToFargateTask props) webTask in
  (environment <$> containers t' !! 0%nat) ≫= (.!! "DD_TRACE_AGENT_PORT") = Some "8125".
Proof. reflexivity. Qed.

(** C2. The CPU reservation of the agent container is read from
    [fireLensLogging.cpu], not from [agent.cpu]: with [agent.cpu] 128 the
    definition handed to [addContainer] carries 64 when [fireLensLogging.cpu]
    is 64, and an undefined [cpu] when there is no [fireLensLogging]; the
    container added has no CPU reservation of 128 in either case. *)
Theorem agent_cpu_read_from_firelens :
  let agent := agentWith (Some true) (Some 128) None None None in
  let withFirelensCpu :=
    propsWith (Some agent) (Some (firelensWith None None None None (Some 64))) in
  let withoutFirelens := propsWith (Some agent) None in
  Options.cpu (agentContainerOptions withFirelensCpu) = Js.Present (Some 64)
  ∧ Options.cpu (agentContainerOptions withoutFirelens) = Js.Present None
  ∧ cpu <$> containers (taskAfter (addDatadogToFargateTask withFirelensCpu) webTask)
    = [None; Some 64]
  ∧ cpu <$> containers (taskAfter (addDatadogToFargateTask withoutFirelens) webTask)
    = [None; None].
Proof. repeat split; reflexivity. Qed.

(** C3, as stated, fails on a mapping with a single entry: both
    flattenings of [{env: "prod"}] are "env:prod", so the agent's DD_TAGS
    and the Firelens dd_tags are the same string. *)
Lemma tag_separators_counterexample :
  let T := [("env", "prod")] in
  let props :=
    propsWith (Some (agentWith (Some true) None (Some T) None None))
      (Some (firelensWith (Some true) None None (Some T) None)) in
  Options.environment (agentContainerOptions props) !! "DD_TAGS" = Some "env:prod"
  ∧ firelensOptions props !! "dd_tags" = Some "env:prod"
  ∧ ¬ (formatTags T " " ≠ formatTags T ",").
Proof. split_and!; [reflexivity..|]. intros Hne. by apply Hne. Qed.

(** C3, amended. For every tag mapping T, the agent's DD_TAGS is the
    key:value pairs of T joined by a single space and the Firelens dd_tags
    is the same pairs joined by a comma; the two strings differ exactly when
    T has at least two entries. *)
Theorem tag_separators props (T : Tags) :
  Props.agent props ≫= Agent.tags = Some T →
  Props.fireLensLogging props ≫= Firelens.tags = Some T →
  let pairs := (λ kv : string * string, kv.1 ++ ":" ++ kv.2) <$> T in
  let DD_TAGS := Options.environment (agentContainerOptions props) !! "DD_TAGS" in
  let dd_tags := firelensOptions props !! "dd_tags" in
  DD_TAGS = Some (String.concat " " pairs)
  ∧ dd_tags = Some (String.concat "," pairs)
  ∧ (DD_TAGS ≠ dd_tags ↔ (2 ≤ length T)%nat).
Proof.
  intros Hagent Hfirelens pairs DD_TAGS dd_tags.
  unfold DD_TAGS, dd_tags.
  rewrite (agent_DD_TAGS _ _ Hagent), (firelens_dd_tags _ _ Hfirelens).
  split_and!; [done..|].
  unfold formatTags. fold pairs.
  rewrite <- (length_fmap (λ kv : string * string, kv.1 ++ ":" ++ kv.2) T).
  fold pairs. rewrite <- join_separators_differ. split; [|congruence].
  intros Hne Heq. apply Hne. by rewrite Heq.
Qed.

Lemma tag_separators_witness :
  let T := [("env", "prod"); ("team", "core")] in
  let props :=
    propsWith (Some (agentWith (Some true) None (Some T) None None))
      (Some (firelensWith (Some true) None None (Some T) None)) in
  let DD_TAGS := Options.environment (agentContainerOptions props) !! "DD_TAGS" in
  let dd_tags := firelensOptions props !! "dd_tags" in
  DD_TAGS = Some "env:prod team:core"
  ∧ dd_tags = Some "env:prod,team:core"
  ∧ (DD_TAGS ≠ dd_tags ↔ (2 ≤ 2)%nat).
Proof.
  intros T props.
  apply (tag_separators props T); reflexivity.
Defined.

(** C5. When [agent.enabled] and [fireLensLogging.enabled] are both false
    or unset, the helper returns normally and leaves the task exactly as it
    was: no container is added, and no container's environment or log
    configuration changes. *)
Theorem disabled_leaves_task_unchanged props t :
  Props.agent props ≫= Agent.enabled ≠ Some true →
  Props.fireLensLogging props ≫= Firelens.enabled ≠ Some true →
  addDatadogToFargateTask props t = (t, Normal ()).
Proof.
  intros Hagent Hfirelens.
  rewrite run_agent_disabled.
  - unfold firelensStage.
    by destruct (Props.fireLensLogging props ≫= Firelens.enabled) as [[]|].
  - by destruct (Props.agent props ≫= Agent.enabled) as [[]|].
Qed.

Lemma disabled_leaves_task_unchanged_witness :
  addDatadogToFargateTask
    (propsWith (Some (agentWith (Some false) None None (Some apmOn) None)) None)
    webTask
  = (webTask, Normal ()).
Proof. apply disabled_leaves_task_unchanged; simpl; discriminate. Defined.

(** C6, as stated, fails when the StatsD loop writes under an APM name:
    with [doNotSet] true under [agent.apm] and [statsdHostEnvVarName]
    overridden to "DD_AGENT_HOST", the container the task had, which had no
    such variable, ends with DD_AGENT_HOST "localhost". *)
Lemma doNotSet_suppresses_propagation_counterexample :
  let apmQuiet := Apm.mk (Some true) None (Some (ApmEnv.mk (Some true) None None None)) in
  let statsdAsApm :=
    Statsd.mk (Some true) None (Some (StatsdEnv.mk None (Some "DD_AGENT_HOST") None)) in
  let props :=
    propsWith (Some (agentWith (Some true) None None (Some apmQuiet) (Some statsdAsApm)))
      None in
  let t' := taskAfter (addDatadogToFargateTask props) webTask in
  ((Props.agent props ≫= Agent.apm) ≫= Apm.applicationEnvVars) ≫= ApmEnv.doNotSet
    = Some true
  ∧ "DD_AGENT_HOST" ∈ apmEnvVarNames props
  ∧ containers webTask !! 0%nat = Some web
  ∧ environment web !! "DD_AGENT_HOST" = None
  ∧ (environment <$> containers t' !! 0%nat) ≫= (.!! "DD_AGENT_HOST") = Some "localhost"
  ∧ ¬ ∃ c', containers t' !! 0%nat = Some c'
            ∧ environment c' !! "DD_AGENT_HOST" = environment web !! "DD_AGENT_HOST".
Proof.
  intros apmQuiet statsdAsApm props t'. split_and!; [reflexivity| |reflexivity..|].
  - vm_compute. set_solver.
  - intros (c' & Hc' & Henv). vm_compute in Hc'.
    injection Hc' as <-. vm_compute in Henv. discriminate.
Qed.

(** C6, amended. With [applicationEnvVars.doNotSet] true under [agent.apm],
    a container present before the call keeps its position, its name and
    every environment variable, except under the names the StatsD loop
    writes in this call: none unless [agent.enabled] and [statsd.enabled]
    are true and [doNotSet] under [agent.statsd] is not. The same holds with
    the roles of APM and StatsD exchanged, so with both [doNotSet] true
    every environment is left as it was. Whether [apm.enabled] or
    [statsd.enabled] is true plays no part in what is suppressed, and all of
    it holds however the call completes. *)
Theorem doNotSet_suppresses_propagation props t :
  let apm := Props.agent props ≫= Agent.apm in
  let statsd := Props.agent props ≫= Agent.statsd in
  let apmDoNotSet := (apm ≫= Apm.applicationEnvVars) ≫= ApmEnv.doNotSet in
  let statsdDoNotSet := (statsd ≫= Statsd.applicationEnvVars) ≫= StatsdEnv.doNotSet in
  let t' := taskAfter (addDatadogToFargateTask props) t in
  (apmDoNotSet = Some true →
   ∀ i c, containers t !! i = Some c →
     ∃ c', containers t' !! i = Some c'
           ∧ containerName c' = containerName c
           ∧ ∀ k, k ∉ propagatedStatsdEnvVarNames props →
                  environment c' !! k = environment c !! k)
  ∧ (statsdDoNotSet = Some true →
     ∀ i c, containers t !! i = Some c →
       ∃ c', containers t' !! i = Some c'
             ∧ containerName c' = containerName c
             ∧ ∀ k, k ∉ propagatedApmEnvVarNames props →
                    environment c' !! k = environment c !! k)
  ∧ (apmDoNotSet = Some true → statsdDoNotSet = Some true →
     ∀ i c, containers t !! i = Some c →
       ∃ c', containers t' !! i = Some c'
             ∧ containerName c' = containerName c
             ∧ environment c' = environment c).
Proof.
  intros apm statsd apmDoNotSet statsdDoNotSet t'.
  pose proof (addDatadogToFargateTask_preserves props t) as Hpres.
  fold t' in Hpres.
  assert (apmDoNotSet = Some true → propagatedApmEnvVarNames props = []) as Hapm.
  { intros Hsuppressed. unfold propagatedApmEnvVarNames. cbv zeta.
    fold apm. fold apmDoNotSet. rewrite Hsuppressed. simpl.
    by rewrite !andb_false_r. }
  assert (statsdDoNotSet = Some true → propagatedStatsdEnvVarNames props = [])
    as Hstatsd.
  { intros Hsuppressed. unfold propagatedStatsdEnvVarNames. cbv zeta.
    fold statsd. fold statsdDoNotSet. rewrite Hsuppressed. simpl.
    by rewrite !andb_false_r. }
  split_and!.
  - intros Hsuppressed i c Hc.
    destruct (Hpres i c Hc) as (c' & Hc' & Hname & _ & Henv).
    exists c'. split_and!; [done..|]. intros k Hk. apply Henv.
    by rewrite (Hapm Hsuppressed).
  - intros Hsuppressed i c Hc.
    destruct (Hpres i c Hc) as (c' & Hc' & Hname & _ & Henv).
    exists c'. split_and!; [done..|]. intros k Hk. apply Henv.
    by rewrite (Hstatsd Hsuppressed), app_nil_r.
  - intros Hsuppressed1 Hsuppressed2 i c Hc.
    destruct (Hpres i c Hc) as (c' & Hc' & Hname & _ & Henv).
    exists c'. split_and!; [done..|]. apply map_eq. intros k. apply Henv.
    rewrite (Hapm Hsuppressed1), (Hstatsd Hsuppressed2). set_solver.
Qed.

Lemma doNotSet_suppresses_propagation_witness :
  let statsdOn := Statsd.mk (Some true) None None in
  let apmQuiet := Apm.mk (Some true) None (Some (ApmEnv.mk (Some true) None None None)) in
  let statsdQuiet :=
    Statsd.mk (Some true) None (Some (StatsdEnv.mk (Some true) None None)) in
  let propsA :=
    propsWith (Some (agentWith (Some true) None None (Some apmQuiet) (Some statsdOn))) None in
  let propsB :=
    propsWith (Some (agentWith (Some true) None None (Some apmOn) (Some statsdQuiet))) None in
  let propsC :=
    propsWith (Some (agentWith (Some true) None None (Some apmQuiet) (Some statsdQuiet)))
      None in
  (∃ c', containers (taskAfter (addDatadogToFargateTask propsA) webTask) !! 0%nat = Some c'
         ∧ containerName c' = "web"
         ∧ environment c' !! "DD_TRACE_ENABLED" = None
         ∧ environment c' !! "DD_AGENT_HOST" = None
         ∧ environment c' !! "DD_TRACE_AGENT_PORT" = None)
  ∧ (∃ c', containers (taskAfter (addDatadogToFargateTask propsB) webTask) !! 0%nat = Some c'
           ∧ containerName c' = "web"
           ∧ environment c' !! "STATSD_HOST" = None
           ∧ environment c' !! "STATSD_PORT" = None)
  ∧ (∃ c', containers (taskAfter (addDatadogToFargateTask propsC) webTask) !! 0%nat = Some c'
           ∧ containerName c' = "web"
           ∧ environment c' = {[ "PORT" := "8080" ]}).
Proof.
  intros statsdOn apmQuiet statsdQuiet propsA propsB propsC. split_and!.
  - destruct (proj1 (doNotSet_suppresses_propagation propsA webTask) eq_refl 0%nat web eq_refl)
      as (c' & Hc' & Hname & Henv).
    exists c'. split_and!; [exact Hc'|exact Hname|..];
      (rewrite Henv; [reflexivity|vm_compute; set_solver]).
  - destruct (proj1 (proj2 (doNotSet_suppresses_propagation propsB webTask))
                eq_refl 0%nat web eq_refl)
      as (c' & Hc' & Hname & Henv).
    exists c'. split_and!; [exact Hc'|exact Hname|..];
      (rewrite Henv; [reflexivity|vm_compute; set_solver]).
  - apply (proj2 (proj2 (doNotSet_suppresses_propagation propsC webTask))
             eq_refl eq_refl 0%nat web eq_refl).
Defined.

(** C7. With [agent.enabled] true, the image of the agent container is the
    explicit [agent.image] when there is one, whatever [agent.imageTag], and
    otherwise the registry image "public.ecr.aws/datadog/agent:" followed by
    [agent.imageTag], "latest" standing for a missing tag; this is the image
    of the definition handed to [addContainer] and of the container it adds
    to a task where the name is free. *)
Theorem agent_image_resolution props t :
  Props.agent props ≫= Agent.enabled = Some true →
  "datadog-agent" ∉ containerNames t →
  let resolved :=
    match Props.agent props ≫= Agent.image with
    | Some explicit => explicit
    | None =>
        fromRegistry
          ("public.ecr.aws/datadog/agent:"
             ++ default "latest" (Props.agent props ≫= Agent.imageTag))
    end in
  Options.image (agentContainerOptions props) = resolved
  ∧ ∃ a, containers (taskAfter (addDatadogToFargateTask props) t)
           !! length (containers t) = Some a
         ∧ containerName a = "datadog-agent"
         ∧ image a = resolved.
Proof.
  intros Hon Hfree resolved.
  assert (Options.image (agentContainerOptions props) = resolved) as Himage.
  { unfold agentContainerOptions, resolved. simpl.
    by destruct (Props.agent props ≫= Agent.image). }
  split; [done|].
  exists (newContainer "datadog-agent" (agentContainerOptions props)).
  split_and!; [|done..].
  apply agent_container_added; [by rewrite Hon|done].
Qed.

Lemma agent_image_resolution_witness :
  let tagged :=
    propsWith (Some (Agent.mk (Some true) None (Some "7.50.0") None None None None None None)) None in
  let explicit :=
    propsWith
      (Some (Agent.mk (Some true) (Some (otherImage "mirror/agent")) (Some "7.50.0")
               None None None None None None)) None in
  (Options.image (agentContainerOptions tagged)
   = fromRegistry "public.ecr.aws/datadog/agent:7.50.0"
   ∧ ∃ a, containers (taskAfter (addDatadogToFargateTask tagged) webTask) !! 1%nat = Some a
          ∧ containerName a = "datadog-agent"
          ∧ image a = fromRegistry "public.ecr.aws/datadog/agent:7.50.0")
  ∧ (Options.image (agentContainerOptions explicit) = otherImage "mirror/agent"
     ∧ ∃ a, containers (taskAfter (addDatadogToFargateTask explicit) webTask) !! 1%nat = Some a
            ∧ containerName a = "datadog-agent"
            ∧ image a = otherImage "mirror/agent").
Proof.
  intros tagged explicit. split.
  - apply (agent_image_resolution tagged webTask); [reflexivity|].
    vm_compute. by intros [?|?%elem_of_nil]%elem_of_cons.
  - apply (agent_image_resolution explicit webTask); [reflexivity|].
    vm_compute. by intros [?|?%elem_of_nil]%elem_of_cons.
Defined.

(** C8. With [fireLensLogging.enabled] true and service and source both
    "myservice", the options of the log driver the helper builds have
    dd_service and dd_source "myservice", Host "http-intake.logs." followed
    by the configured site ("datadoghq.com" by default) and TLS "on", and
    have no dd_tags when no tag mapping is given; when the call returns
    normally on a task with unique names, every container the task had
    carries the driver with these options. *)
Theorem firelens_driver_options props t :
  Props.fireLensLogging props ≫= Firelens.enabled = Some true →
  Props.fireLensLogging props ≫= Firelens.service = Some "myservice" →
  Props.fireLensLogging props ≫= Firelens.source = Some "myservice" →
  let options := firelensOptions props in
  let driver :=
    firelens options (Js.object [("apikey", Props.datadogApiKeySecret props)]) in
  options !! "dd_service" = Some "myservice"
  ∧ options !! "dd_source" = Some "myservice"
  ∧ options !! "Host"
    = Some ("http-intake.logs." ++ default "datadoghq.com" (Props.datadogSite props))
  ∧ options !! "TLS" = Some "on"
  ∧ (Props.fireLensLogging props ≫= Firelens.tags = None →
     options !! "dd_tags" = None)
  ∧ (NoDup (containerNames t) →
     completion (addDatadogToFargateTask props) t = Normal () →
     ∀ i c, containers t !! i = Some c →
       ∃ c', containers (taskAfter (addDatadogToFargateTask props) t) !! i = Some c'
             ∧ containerName c' = containerName c
             ∧ logDriverConfig c' = Some driver).
Proof.
  intros Hon Hservice Hsource options driver.
  assert (options !! "dd_service" = Some "myservice"
          ∧ options !! "dd_source" = Some "myservice"
          ∧ options !! "Host"
            = Some ("http-intake.logs."
                      ++ default "datadoghq.com" (Props.datadogSite props))
          ∧ options !! "TLS" = Some "on"
          ∧ (Props.fireLensLogging props ≫= Firelens.tags = None →
             options !! "dd_tags" = None)) as (? & ? & ? & ? & ?).
  { unfold options, firelensOptions. rewrite Hservice, Hsource.
    destruct (Props.fireLensLogging props ≫= Firelens.tags) as [T|];
      unfold Js.object; simpl; split_and!; done. }
  split_and!; [done..|].
  intros Hnodup Hdone. by apply firelens_driver_bound.
Qed.

Lemma firelens_driver_options_witness :
  let props :=
    propsWith None
      (Some (firelensWith (Some true) (Some "myservice") (Some "myservice") None None)) in
  let options := firelensOptions props in
  options !! "dd_service" = Some "myservice"
  ∧ options !! "dd_source" = Some "myservice"
  ∧ options !! "Host" = Some "http-intake.logs.datadoghq.com"
  ∧ options !! "TLS" = Some "on"
  ∧ options !! "dd_tags" = None
  ∧ ∃ c', containers (taskAfter (addDatadogToFargateTask props) webTask) !! 0%nat = Some c'
          ∧ containerName c' = "web"
          ∧ logDriverConfig c' = Some (firelens options (Js.object [("apikey", apiKey)])).
Proof.
  intros props options.
  destruct (firelens_driver_options props webTask)
    as (H1 & H2 & H3 & H4 & H5 & H6); [reflexivity..|].
  split_and!; [exact H1|exact H2|exact H3|exact H4|apply H5; reflexivity|].
  apply (H6 ltac:(compute_done) eq_refl 0%nat web eq_refl).
Defined.

(** C9. Whatever the task, after one call with [agent.enabled] true a second
    call with [agent.enabled] true throws the duplicate-name error for
    "datadog-agent" raised by [addContainer]; the helper does not catch it,
    and the task stays as the first call left it. *)
Theorem second_injection_fails props1 props2 t :
  Props.agent props1 ≫= Agent.enabled = Some true →
  Props.agent props2 ≫= Agent.enabled = Some true →
  let t1 := taskAfter (addDatadogToFargateTask props1) t in
  "datadog-agent" ∈ containerNames t1
  ∧ addContainer "datadog-agent" (agentContainerOptions props2) t1
    = (t1, Throw (DuplicateContainerName "datadog-agent"))
  ∧ addDatadogToFargateTask props2 t1
    = (t1, Throw (DuplicateContainerName "datadog-agent")).
Proof.
  intros Hon1 Hon2 t1.
  assert ("datadog-agent" ∈ containerNames t1) as Hin.
  { destruct (decide ("datadog-agent" ∈ containerNames t)) as [Hin|Hout].
    - eapply preserves_hasContainer; [apply addDatadogToFargateTask_preserves|done].
    - apply list_elem_of_fmap.
      exists (newContainer "datadog-agent" (agentContainerOptions props1)).
      split; [done|]. eapply list_elem_of_lookup_2.
      apply agent_container_added; [by rewrite Hon1|done]. }
  split_and!; [done| |apply run_agent_duplicate; [by rewrite Hon2|done]].
  unfold addContainer.
  destruct (findIndex "datadog-agent" (containers t1)) eqn:Hfind; [done|].
  by apply findIndex_None in Hfind.
Qed.

Lemma second_injection_fails_witness :
  let props := propsWith (Some (agentWith (Some true) None None (Some apmOn) None)) None in
  let t1 := taskAfter (addDatadogToFargateTask props) webTask in
  "datadog-agent" ∈ containerNames t1
  ∧ addContainer "datadog-agent" (agentContainerOptions props) t1
    = (t1, Throw (DuplicateContainerName "datadog-agent"))
  ∧ addDatadogToFargateTask props t1
    = (t1, Throw (DuplicateContainerName "datadog-agent")).
Proof. intros props. apply (second_injection_fails props props webTask); reflexivity. Defined.

(** * Further properties of the Fargate helper *)

(** ** Effects within a preorder on tasks *)

Section Respecting.

Context (Q : relation TaskDefinition) `{!PreOrder Q}.

Lemma Respects_ret {A} (a : A) : Respects Q (mret a : Build A).
Proof. intros t. reflexivity. Qed.

Lemma Respects_bind {A B} (m : Build A) (f : A → Build B) :
  Respects Q m → (∀ a, Respects Q (f a)) → Respects Q (m ≫= f).
Proof.
  intros Hm Hf t. rewrite taskAfter_bind.
  destruct (completion m t) as [a|e]; [|apply Hm].
  etrans; [apply Hm|apply Hf].
Qed.

Lemma Respects_when c (m : Build unit) : Respects Q m → Respects Q (when c m).
Proof. destruct c; [done|]. intros _. apply Respects_ret. Qed.

Lemma Respects_forOf {A} (xs : list A) (body : A → Build unit) :
  (∀ x, Respects Q (body x)) → Respects Q (forOf xs body).
Proof.
  intros Hbody. induction xs as [|x xs IH]; simpl.
  - apply Respects_ret.
  - apply Respects_bind; [apply Hbody|]. intros _. apply IH.
Qed.

Lemma Respects_findContainer name : Respects Q (findContainer name).
Proof. intros t. reflexivity. Qed.

Lemma Respects_listContainers : Respects Q listContainers.
Proof. intros t. reflexivity. Qed.

Lemma Respects_addFirelensLogRouter name o :
  Respects Q (addContainer name o) → Respects Q (addFirelensLogRouter name o).
Proof.
  intros Hadd t. unfold taskAfter, addFirelensLogRouter.
  destruct (existsb _ _); [reflexivity|apply Hadd].
Qed.

(** The helper stays within [Q] as soon as the insertions do, the
    environment writes do when the agent is enabled, and the log driver
    assignment does when Firelens logging is enabled. *)
Lemma Respects_addDatadogToFargateTask props :
  (∀ name o, Respects Q (addContainer name o)) →
  (agentEnabled props = true → ∀ i k v, Respects Q (addEnvironment i k v)) →
  (firelensEnabled props = true →
   ∀ i, Respects Q (setLogDriverConfig i (firelensLogDriver props))) →
  Respects Q (addDatadogToFargateTask props).
Proof.
  intros Hadd Henv Hlog. unfold addDatadogToFargateTask.
  apply Respects_bind; [apply Respects_listContainers|intros cs]. cbv zeta.
  apply Respects_bind; [|intros _].
  - fold (agentEnabled props).
    destruct (agentEnabled props); [|apply Respects_ret]. simpl.
    specialize (Henv eq_refl).
    apply Respects_bind; [apply Hadd|intros _].
    apply Respects_bind; [|intros _]; apply Respects_when, Respects_forOf;
      intros name; (apply Respects_bind; [apply Respects_findContainer|]);
      intros [i|]; try apply Respects_ret;
      repeat (apply Respects_bind; [apply Henv|intros _]); apply Henv.
  - fold (firelensEnabled props).
    destruct (firelensEnabled props); [|apply Respects_ret]. simpl.
    specialize (Hlog eq_refl).
    apply Respects_bind; [by apply Respects_addFirelensLogRouter|intros _].
    apply Respects_forOf. intros name.
    apply Respects_bind; [apply Respects_findContainer|].
    intros [i|]; [apply Hlog|]. intros t. reflexivity.
Qed.

End Respecting.

(** ** Keeping a relation on every container *)

#[local] Instance keeps_preorder (R : relation ContainerDefinition) `{!PreOrder R} :
  PreOrder (keeps R).
Proof.
  split.
  - intros t i c Hc. by exists c.
  - intros t1 t2 t3 H12 H23 i c Hc.
    destruct (H12 i c Hc) as (c2 & Hc2 & HR2).
    destruct (H23 i c2 Hc2) as (c3 & Hc3 & HR3).
    exists c3. split; [done|]. by etrans.
Qed.

Lemma keeps_addContainer (R : relation ContainerDefinition) `{!Reflexive R} name o :
  Respects (keeps R) (addContainer name o).
Proof.
  intros t i c Hc. unfold taskAfter, addContainer.
  destruct (findIndex name (containers t)); simpl; [by exists c|].
  exists c. split; [|done]. by apply lookup_app_l_Some.
Qed.

Lemma keeps_alter (R : relation ContainerDefinition) `{!Reflexive R}
    (f : ContainerDefinition → ContainerDefinition) i t :
  (∀ c, R c (f c)) → keeps R t (mkTask (alter f i (containers t))).
Proof.
  intros Hf j c Hc. simpl. destruct (decide (i = j)) as [->|Hne].
  - exists (f c). by rewrite list_lookup_alter_eq, Hc.
  - exists c. by rewrite list_lookup_alter_ne.
Qed.

(** Whatever the configuration and however the call completes, a relation
    that tolerates a change of environment and of log configuration holds
    between every container of the task and the container at its position
    afterwards. *)
Lemma addDatadogToFargateTask_keeps (R : relation ContainerDefinition)
    `{!PreOrder R} props :
  (agentEnabled props = true → ∀ c env, R c (withEnvironment env c)) →
  (firelensEnabled props = true → ∀ c cfg, R c (withLogDriverConfig cfg c)) →
  Respects (keeps R) (addDatadogToFargateTask props).
Proof.
  intros Henv Hlog. apply Respects_addDatadogToFargateTask; [apply _|..].
  - intros name o. apply keeps_addContainer; apply _.
  - intros Hon i k v t. apply keeps_alter; [apply _|]. intros c. by apply Henv.
  - intros Hon i t. apply keeps_alter; [apply _|]. intros c. by apply Hlog.
Qed.

(** ** The skeleton of a task *)

Lemma skeleton_names t : containerName <$> skeleton t = containerNames t.
Proof.
  unfold skeleton, containerNames. rewrite <- list_fmap_compose.
  by apply list_fmap_ext.
Qed.

Lemma skeleton_hasFirelensRouter t t' :
  skeleton t = skeleton t' → hasFirelensRouter t = hasFirelensRouter t'.
Proof.
  unfold skeleton, hasFirelensRouter.
  generalize (containers t) (containers t'). clear.
  induction l as [|c l IH]; intros [|c' l'] Heq; simplify_eq/=; [done|].
  f_equal; [|by apply IH].
  by replace (firelensRouter c) with (firelensRouter c')
    by (by destruct c, c'; simplify_eq/=).
Qed.

Lemma skeleton_alter (f : ContainerDefinition → ContainerDefinition) i t :
  (∀ c, asBuilt (f c) = asBuilt c) →
  skeleton (mkTask (alter f i (containers t))) = skeleton t.
Proof.
  intros Hf. unfold skeleton. simpl.
  rewrite (list_fmap_alter asBuilt f id) by (by apply Forall_forall).
  by apply list_alter_id.
Qed.

Lemma skeleton_app t cs :
  skeleton (mkTask (containers t ++ cs)) = (skeleton t ++ (asBuilt <$> cs))%list.
Proof. unfold skeleton. simpl. apply fmap_app. Qed.

(** ** The loops, with their completion *)

Lemma forOf_cons {A} (x : A) xs (body : A → Build unit) t :
  forOf (x :: xs) body t =
  match body x t with
  | (t', Normal _) => forOf xs body t'
  | (t', Throw e) => (t', Throw e)
  end.
Proof. reflexivity. Qed.

Lemma findContainer_run name t :
  findContainer name t = (t, Normal (findIndex name (containers t))).
Proof. reflexivity. Qed.

(** The two propagation loops complete normally on every task and every
    list of names, and change nothing of the skeleton. *)
Lemma propagateApmEnvVars_completes props names t :
  ∃ t', propagateApmEnvVars props names t = (t', Normal ())
        ∧ skeleton t' = skeleton t.
Proof.
  unfold propagateApmEnvVars. revert t.
  induction names as [|name names IH]; intros t; [by exists t|].
  rewrite forOf_cons, run_bind, findContainer_run.
  destruct (findIndex name (containers t)) as [i|].
  - rewrite apmBody_run. cbv beta iota.
    destruct (IH (mkTask (alter (addEnvironments (apmWrites props)) i (containers t))))
      as (t' & -> & Ht').
    exists t'. split; [done|]. rewrite Ht'. by apply skeleton_alter.
  - apply IH.
Qed.

Lemma propagateStatsdEnvVars_completes props names t :
  ∃ t', propagateStatsdEnvVars props names t = (t', Normal ())
        ∧ skeleton t' = skeleton t.
Proof.
  unfold propagateStatsdEnvVars. revert t.
  induction names as [|name names IH]; intros t; [by exists t|].
  rewrite forOf_cons, run_bind, findContainer_run.
  destruct (findIndex name (containers t)) as [i|].
  - rewrite statsdBody_run. cbv beta iota.
    destruct (IH (mkTask (alter (addEnvironments (statsdWrites props)) i (containers t))))
      as (t' & -> & Ht').
    exists t'. split; [done|]. rewrite Ht'. by apply skeleton_alter.
  - apply IH.
Qed.

Lemma apmStage_completes props names t :
  ∃ t', apmStage props names t = (t', Normal ()) ∧ skeleton t' = skeleton t.
Proof.
  unfold apmStage. cbv zeta. destruct (_ && _); simpl.
  - apply propagateApmEnvVars_completes.
  - by exists t.
Qed.

Lemma statsdStage_completes props names t :
  ∃ t', statsdStage props names t = (t', Normal ()) ∧ skeleton t' = skeleton t.
Proof.
  unfold statsdStage. cbv zeta. destruct (_ && _); simpl.
  - apply propagateStatsdEnvVars_completes.
  - by exists t.
Qed.

(** The binding loop completes normally when every name of the list is in
    the task, and throws a TypeError at the first that is not. *)
Lemma bindFirelensLogDriver_completion props names t :
  ∃ t', bindFirelensLogDriver props names t
        = (t', if decide (Forall (λ name, name ∈ containerNames t) names)
               then Normal () else Throw TypeError)
        ∧ skeleton t' = skeleton t.
Proof.
  unfold bindFirelensLogDriver. revert t.
  induction names as [|name names IH]; intros t.
  { exists t. by rewrite decide_True by constructor. }
  rewrite forOf_cons, run_bind, findContainer_run.
  destruct (findIndex name (containers t)) as [i|] eqn:Hfind.
  - unfold setLogDriverConfig at 1. cbv beta iota.
    set (t1 := mkTask (alter _ i (containers t))).
    assert (skeleton t1 = skeleton t) as Hskel by (by apply skeleton_alter).
    assert (containerNames t1 = containerNames t) as Hnames
      by (by rewrite <- !skeleton_names, Hskel).
    destruct (IH t1) as (t' & -> & Ht'). exists t'. split; [|congruence].
    f_equal. rewrite Hnames.
    assert (name ∈ containerNames t) as Hin.
    { destruct (decide (name ∈ containerNames t)) as [|Hout]; [done|].
      apply findIndex_None in Hout. congruence. }
    destruct (decide (Forall _ names)) as [Hall|Hnot].
    + by rewrite decide_True by (by constructor).
    + rewrite decide_False; [done|]. by intros [_ ?]%Forall_cons.
  - exists t. split; [|done]. apply findIndex_None in Hfind.
    rewrite decide_False; [done|]. by intros [? _]%Forall_cons.
Qed.

(** ** How a call completes and what it adds *)

Lemma firelensOutcome_skeleton props t t' :
  skeleton t = skeleton t' → firelensOutcome props t = firelensOutcome props t'.
Proof.
  intros Hskel. unfold firelensOutcome.
  rewrite (skeleton_hasFirelensRouter _ _ Hskel).
  by rewrite <- !skeleton_names, Hskel.
Qed.

Lemma routerPart_skeleton props t t' :
  skeleton t = skeleton t' → routerPart props t = routerPart props t'.
Proof. intros Hskel. unfold routerPart. by rewrite (firelensOutcome_skeleton _ _ _ Hskel). Qed.

Lemma firelensOutcome_agent_added props t :
  firelensOutcome props (mkTask (containers t ++ [agentContainer props]))
  = firelensOutcome props t.
Proof.
  unfold firelensOutcome, hasFirelensRouter, containerNames. simpl.
  rewrite existsb_app, fmap_app. simpl. rewrite !orb_false_r.
  destruct (firelensEnabled props); [|done]. destruct (existsb _ _); [done|].
  destruct (decide ("log_router" ∈ containerName <$> containers t)) as [Hin|Hout].
  - rewrite !bool_decide_eq_true_2; [done..|]. set_solver.
  - rewrite !bool_decide_eq_false_2; [done..|]. set_solver.
Qed.

(** The Firelens stage on a list of names all in the task. *)
Lemma firelensStage_run props names t :
  Forall (λ name, name ∈ containerNames t) names →
  ∃ t', firelensStage props names t = (t', firelensOutcome props t)
        ∧ skeleton t' = (skeleton t ++ (asBuilt <$> routerPart props t))%list
        ∧ ∀ j s, routerPart props t !! j = Some s →
                 containers t' !! (length (containers t) + j)%nat = Some s.
Proof.
  intros Hall. unfold firelensStage, firelensOutcome, routerPart, firelensOutcome.
  fold (firelensEnabled props).
  destruct (firelensEnabled props); simpl.
  2: { exists t. by rewrite app_nil_r. }
  rewrite run_bind. unfold addFirelensLogRouter. fold (hasFirelensRouter t).
  destruct (hasFirelensRouter t).
  { exists t. by rewrite app_nil_r. }
  unfold addContainer.
  destruct (findIndex "log_router" (containers t)) as [i|] eqn:Hfind.
  { exists t. rewrite bool_decide_eq_true_2, app_nil_r; [done|].
    destruct (decide ("log_router" ∈ containerNames t)) as [|Hout]; [done|].
    apply findIndex_None in Hout. congruence. }
  apply findIndex_None in Hfind. rewrite bool_decide_eq_false_2 by done.
  fold (logRouterContainer props).
  set (t4 := mkTask (containers t ++ [logRouterContainer props])).
  destruct (bindFirelensLogDriver_completion props names t4) as (t' & Hrun & Hskel).
  rewrite decide_True in Hrun.
  2: { eapply Forall_impl; [exact Hall|]. intros name Hin.
       unfold t4, containerNames. simpl. rewrite fmap_app. set_solver. }
  exists t'. split_and!; [done|by rewrite Hskel; apply skeleton_app|].
  intros [|[|j]] s Hs; simplify_eq/=.
  destruct (Preserving_bindFirelensLogDriver props names t4
              (length (containers t)) (logRouterContainer props))
    as (c' & Hc' & _ & Hsame & _).
  { unfold t4. simpl. by apply list_lookup_middle. }
  unfold taskAfter in Hc'. rewrite Hrun in Hc'. simpl in Hc'.
  rewrite Nat.add_0_r, Hc'. f_equal. apply Hsame.
  intros Hin. apply Hfind. by eapply (proj1 (Forall_forall _ _) Hall).
Qed.

Lemma skeleton_length t t' cs :
  skeleton t' = (skeleton t ++ cs)%list →
  length (containers t') = (length (containers t) + length cs)%nat.
Proof.
  intros Hskel. apply (f_equal length) in Hskel.
  unfold skeleton in Hskel. by rewrite length_app, !length_fmap in Hskel.
Qed.

(** The helper as a whole: its completion is decided by the task on entry,
    and the task it leaves has the containers it had, as built, followed by
    the sidecars it added, untouched. *)
Lemma addDatadogToFargateTask_run props t :
  ∃ t', addDatadogToFargateTask props t = (t', helperOutcome props t)
        ∧ skeleton t' = (skeleton t ++ (asBuilt <$> addedSidecars props t))%list
        ∧ ∀ j s, addedSidecars props t !! j = Some s →
                 containers t' !! (length (containers t) + j)%nat = Some s.
Proof.
  unfold helperOutcome, addedSidecars.
  destruct (agentEnabled props) eqn:Hon; simpl.
  - destruct (decide ("datadog-agent" ∈ containerNames t)) as [Hin|Hout].
    + rewrite bool_decide_eq_true_2 by done.
      rewrite run_agent_duplicate by done.
      exists t. by rewrite app_nil_r.
    + rewrite bool_decide_eq_false_2 by done.
      pose proof (agent_container_added props t Hon Hout) as Hagent.
      revert Hagent. unfold taskAfter.
      rewrite run_agent_added by done. fold (agentContainer props).
      set (t1 := mkTask (containers t ++ [agentContainer props])).
      rewrite !run_bind.
      destruct (apmStage_completes props (containerNames t) t1) as (t2 & -> & H2).
      rewrite !run_bind.
      destruct (statsdStage_completes props (containerNames t) t2) as (t3 & -> & H3).
      assert (skeleton t3 = skeleton t1) as H13 by congruence.
      destruct (firelensStage_run props (containerNames t) t3) as (t' & Hrun & Hskel & Hrouter).
      { apply Forall_forall. intros name Hin.
        rewrite <- skeleton_names, H13, skeleton_names.
        unfold t1, containerNames. simpl. rewrite fmap_app. set_solver. }
      assert (firelensOutcome props t3 = firelensOutcome props t) as Houtcome.
      { rewrite (firelensOutcome_skeleton _ _ _ H13). apply firelensOutcome_agent_added. }
      assert (routerPart props t3 = routerPart props t) as Hpart.
      { unfold routerPart. by rewrite Houtcome. }
      rewrite Houtcome in Hrun. rewrite Hpart in Hskel, Hrouter.
      rewrite Hrun. intros Hagent. simpl in Hagent.
      exists t'. split_and!; [done| |].
      * rewrite Hskel, H13. unfold t1. rewrite skeleton_app. simpl.
        by rewrite <- app_assoc.
      * intros [|j] s Hs; simplify_eq/=.
        { by rewrite Nat.add_0_r. }
        specialize (Hrouter j s Hs).
        rewrite (skeleton_length t t3 [asBuilt (agentContainer props)]) in Hrouter.
        2: { rewrite H13. unfold t1. by rewrite skeleton_app. }
        simpl in Hrouter.
        by replace (length (containers t) + S j)%nat
          with (length (containers t) + 1 + j)%nat by lia.
  - rewrite run_agent_disabled by done.
    apply firelensStage_run. apply Forall_forall. auto.
Qed.

(** * The claims on stale snapshots and on falsy CPU reservations *)







(** C10. A falsy [agent.cpu] (0, or unset) is treated as unset: the
    definition the helper hands to [addContainer] has no [cpu] property, and
    the "datadog-agent" container the call adds, built from that definition,
    has no CPU reservation. Likewise a falsy [fireLensLogging.cpu] leaves the
    definition handed to [addFirelensLogRouter] without a [cpu] property and
    the "log_router" container the call adds without a CPU reservation. The
    conditional spreads test truthiness, not presence: an explicit 0 does
    what a missing field does. *)
Theorem falsy_cpu_is_unset props t :
  let t' := taskAfter (addDatadogToFargateTask props) t in
  (Props.agent props ≫= Agent.enabled = Some true →
   "datadog-agent" ∉ containerNames t →
   Js.truthyNumber (Props.agent props ≫= Agent.cpu) = false →
   Options.cpu (agentContainerOptions props) = Js.Absent
   ∧ ∃ a, containers t' !! length (containers t) = Some a
          ∧ a = newContainer "datadog-agent" (agentContainerOptions props)
          ∧ containerName a = "datadog-agent"
          ∧ cpu a = None)
  ∧ (Props.fireLensLogging props ≫= Firelens.enabled = Some true →
     completion (addDatadogToFargateTask props) t = Normal () →
     Js.truthyNumber (Props.fireLensLogging props ≫= Firelens.cpu) = false →
     Options.cpu (logRouterOptions props) = Js.Absent
     ∧ ∃ r, last (containers t') = Some r
            ∧ r = newContainer "log_router" (logRouterOptions props)
            ∧ containerName r = "log_router"
            ∧ cpu r = None).
Proof.
  intros t'. split.
  - intros Hagent Hfree Hfalsy.
    assert (Options.cpu (agentContainerOptions props) = Js.Absent) as Habsent.
    { unfold agentContainerOptions. simpl. by rewrite Hfalsy. }
    split; [done|].
    exists (newContainer "datadog-agent" (agentContainerOptions props)).
    split_and!; [|done|done|].
    + apply agent_container_added; [by rewrite Hagent|done].
    + unfold newContainer. simpl. by rewrite Hfalsy.
  - intros Hfirelens Hdone Hfalsy.
    assert (Options.cpu (logRouterOptions props) = Js.Absent) as Habsent.
    { unfold logRouterOptions. simpl. by rewrite Hfalsy. }
    split; [done|].
    exists (logRouterContainer props). unfold t'.
    unfold completion in Hdone. unfold taskAfter.
    destruct (addDatadogToFargateTask_run props t) as (t2 & Hrun & Hskel & Hadded).
    rewrite Hrun in Hdone |- *. simpl in Hdone |- *.
    assert (∃ j, addedSidecars props t !! j = Some (logRouterContainer props)
                 ∧ length (addedSidecars props t) = S j) as (j & Hj & Hlenj).
    { revert Hdone. unfold helperOutcome, addedSidecars, routerPart, firelensOutcome.
      unfold firelensEnabled. rewrite Hfirelens. simpl.
      destruct (agentEnabled props), (bool_decide ("datadog-agent" ∈ containerNames t)),
        (hasFirelensRouter t), (bool_decide ("log_router" ∈ containerNames t));
        try done; intros _; first [by exists 1%nat | by exists 0%nat]. }
    split_and!; [|done|done|].
    + rewrite last_lookup.
      rewrite (skeleton_length _ _ _ Hskel), length_fmap, Hlenj.
      replace (pred (length (containers t) + S j)) with (length (containers t) + j)%nat
        by lia.
      by apply Hadded.
    + unfold logRouterContainer, newContainer. simpl. by rewrite Hfalsy.
Qed.

Lemma falsy_cpu_is_unset_witness :
  let props :=
    propsWith (Some (agentWith (Some true) (Some 0) None None None))
      (Some (firelensWith (Some true) None None None (Some 0))) in
  let t' := taskAfter (addDatadogToFargateTask props) webTask in
  (Options.cpu (agentContainerOptions props) = Js.Absent
   ∧ ∃ a, containers t' !! 1%nat = Some a
          ∧ a = newContainer "datadog-agent" (agentContainerOptions props)
          ∧ containerName a = "datadog-agent"
          ∧ cpu a = None)
  ∧ (Options.cpu (logRouterOptions props) = Js.Absent
     ∧ ∃ r, last (containers t') = Some r
            ∧ r = newContainer "log_router" (logRouterOptions props)
            ∧ containerName r = "log_router"
            ∧ cpu r = None).
Proof.
  intros props. split.
  - apply (proj1 (falsy_cpu_is_unset props webTask)); [reflexivity| |reflexivity].
    vm_compute. set_solver.
  - apply (proj2 (falsy_cpu_is_unset props webTask)); reflexivity.
Defined.

(** ** Completion, names and frame of the Fargate helper *)

(** X1. [addDatadogToFargateTask] never throws a TypeError, whatever the
    task and the configuration: every name of the snapshot taken on entry is
    still the name of a container when the Firelens loop looks it up, since
    between the two the helper only adds containers and writes environment
    variables. *)
Theorem helper_never_throws_TypeError props t :
  completion (addDatadogToFargateTask props) t ≠ Throw TypeError.
Proof.
  unfold completion.
  destruct (addDatadogToFargateTask_run props t) as (t' & -> & _). simpl.
  unfold helperOutcome, firelensOutcome.
  destruct (agentEnabled props), (bool_decide ("datadog-agent" ∈ containerNames t)),
    (firelensEnabled props), (hasFirelensRouter t),
    (bool_decide ("log_router" ∈ containerNames t)); done.
Qed.

(** X2. How [addDatadogToFargateTask] completes is decided by the task on
    entry: it throws the duplicate-name error for "datadog-agent" when the
    agent is enabled and the name is taken; otherwise, with Firelens logging
    enabled, it throws when the task already has a log router, or else when
    "log_router" is taken; in every other case it returns normally. *)
Theorem helper_completion props t :
  let taken name := bool_decide (name ∈ containerNames t) in
  completion (addDatadogToFargateTask props) t
  = (if agentEnabled props && taken "datadog-agent"
     then Throw (DuplicateContainerName "datadog-agent")
     else if firelensEnabled props && hasFirelensRouter t
     then Throw FirelensRouterAlreadyAdded
     else if firelensEnabled props && taken "log_router"
     then Throw (DuplicateContainerName "log_router")
     else Normal ()).
Proof.
  intros taken. unfold completion.
  destruct (addDatadogToFargateTask_run props t) as (t' & -> & _). simpl.
  unfold helperOutcome, firelensOutcome, taken.
  destruct (agentEnabled props), (bool_decide ("datadog-agent" ∈ containerNames t)),
    (firelensEnabled props), (hasFirelensRouter t),
    (bool_decide ("log_router" ∈ containerNames t)); done.
Qed.

(** X3. When the call returns normally, the container names of the task are
    those it had, in order, followed by "datadog-agent" if the agent is
    enabled and then by "log_router" if Firelens logging is enabled. *)
Theorem names_after_injection props t :
  completion (addDatadogToFargateTask props) t = Normal () →
  containerNames (taskAfter (addDatadogToFargateTask props) t)
  = (containerNames t
     ++ (if agentEnabled props then ["datadog-agent"] else [])
     ++ (if firelensEnabled props then ["log_router"] else []))%list.
Proof.
  unfold completion, taskAfter.
  destruct (addDatadogToFargateTask_run props t) as (t' & -> & Hskel & _). simpl.
  intros Hdone. rewrite <- !skeleton_names, Hskel, fmap_app. f_equal.
  rewrite <- list_fmap_compose.
  revert Hdone. unfold helperOutcome, addedSidecars, routerPart, firelensOutcome.
  destruct (agentEnabled props), (bool_decide ("datadog-agent" ∈ containerNames t)),
    (firelensEnabled props), (hasFirelensRouter t),
    (bool_decide ("log_router" ∈ containerNames t)); done.
Qed.

Lemma names_after_injection_witness :
  let props :=
    propsWith (Some (agentWith (Some true) None None (Some apmOn) None))
      (Some (firelensWith (Some true) None None None None)) in
  containerNames (taskAfter (addDatadogToFargateTask props) webTask)
  = ["web"; "datadog-agent"; "log_router"].
Proof. intros props. apply (names_after_injection props webTask). reflexivity. Defined.

Lemma addedSidecars_names props t :
  NoDup (containerNames t) →
  NoDup (containerNames t ++ (containerName <$> addedSidecars props t)).
Proof.
  intros Hnodup. unfold addedSidecars, routerPart, firelensOutcome.
  destruct (agentEnabled props), (firelensEnabled props), (hasFirelensRouter t);
    repeat case_bool_decide; simpl; rewrite ?app_nil_r; try done;
    apply NoDup_app; (split_and!; [done|set_solver|]);
    repeat (apply NoDup_cons; split; [set_solver|]); apply NoDup_nil_2.
Qed.

(** X4. The helper keeps container names unique: if no two containers of
    the task share a name before the call, none do after it, however the
    call completes. *)
Theorem injection_keeps_names_unique props t :
  NoDup (containerNames t) →
  NoDup (containerNames (taskAfter (addDatadogToFargateTask props) t)).
Proof.
  intros Hnodup. unfold taskAfter.
  destruct (addDatadogToFargateTask_run props t) as (t' & -> & Hskel & _). simpl.
  rewrite <- skeleton_names, Hskel, fmap_app, skeleton_names.
  rewrite <- list_fmap_compose. by apply addedSidecars_names.
Qed.

Lemma injection_keeps_names_unique_witness :
  let props :=
    propsWith (Some (agentWith (Some true) None None (Some apmOn) None))
      (Some (firelensWith (Some true) None None None None)) in
  NoDup (containerNames (taskAfter (addDatadogToFargateTask props) webTask)).
Proof.
  intros props. apply (injection_keeps_names_unique props webTask). compute_done.
Defined.

(** X5. Whatever the configuration and however the call completes, every
    container of the task stays at its position with its name, image,
    memory limit, CPU reservation, secrets and router role: the helper
    writes nothing but environment variables and the log configuration. *)
Theorem injection_keeps_build props t i c :
  containers t !! i = Some c →
  ∃ c', containers (taskAfter (addDatadogToFargateTask props) t) !! i = Some c'
        ∧ containerName c' = containerName c
        ∧ image c' = image c
        ∧ memoryLimitMiB c' = memoryLimitMiB c
        ∧ cpu c' = cpu c
        ∧ secrets c' = secrets c
        ∧ firelensRouter c' = firelensRouter c.
Proof.
  intros Hc. unfold taskAfter.
  destruct (addDatadogToFargateTask_run props t) as (t' & -> & Hskel & _). simpl.
  assert (skeleton t' !! i = Some (asBuilt c)) as Hi.
  { rewrite Hskel. apply lookup_app_l_Some. unfold skeleton.
    by rewrite list_lookup_fmap, Hc. }
  unfold skeleton in Hi. rewrite list_lookup_fmap in Hi.
  destruct (containers t' !! i) as [c'|]; [|done].
  exists c'. split; [done|]. simpl in Hi. injection Hi as Hi.
  destruct c, c'. unfold asBuilt, withLogDriverConfig, withEnvironment in Hi.
  simpl in *. by simplify_eq.
Qed.

Lemma injection_keeps_build_witness :
  let props :=
    propsWith (Some (agentWith (Some true) None None (Some apmOn) None))
      (Some (firelensWith (Some true) None None None None)) in
  ∃ c', containers (taskAfter (addDatadogToFargateTask props) webTask) !! 0%nat = Some c'
        ∧ containerName c' = "web"
        ∧ image c' = fromRegistry "nginx:stable"
        ∧ memoryLimitMiB c' = Some 512
        ∧ cpu c' = None
        ∧ secrets c' = ∅
        ∧ firelensRouter c' = None.
Proof.
  intros props. apply (injection_keeps_build props webTask 0%nat web). reflexivity.
Defined.

#[local] Instance same_environment_preorder :
  PreOrder (λ c c' : ContainerDefinition, environment c' = environment c).
Proof. split; [done|]. intros c1 c2 c3 H12 H23. congruence. Qed.

#[local] Instance same_logDriverConfig_preorder :
  PreOrder (λ c c' : ContainerDefinition, logDriverConfig c' = logDriverConfig c).
Proof. split; [done|]. intros c1 c2 c3 H12 H23. congruence. Qed.

(** X6. Each half of the helper is gated by its own flag alone: with
    [agent.enabled] false or unset no environment of a container of the
    task changes, whatever [apm] and [statsd] say; with
    [fireLensLogging.enabled] false or unset no log configuration changes.
    Both hold however the call completes. *)
Theorem injection_gated_by_flags props t :
  (Props.agent props ≫= Agent.enabled ≠ Some true →
   ∀ i c, containers t !! i = Some c →
     ∃ c', containers (taskAfter (addDatadogToFargateTask props) t) !! i = Some c'
           ∧ environment c' = environment c)
  ∧ (Props.fireLensLogging props ≫= Firelens.enabled ≠ Some true →
     ∀ i c, containers t !! i = Some c →
       ∃ c', containers (taskAfter (addDatadogToFargateTask props) t) !! i = Some c'
             ∧ logDriverConfig c' = logDriverConfig c).
Proof.
  split; intros Hoff.
  - apply (addDatadogToFargateTask_keeps
             (λ c c', environment c' = environment c)); [|done].
    unfold agentEnabled.
    by destruct (Props.agent props ≫= Agent.enabled) as [[]|].
  - apply (addDatadogToFargateTask_keeps
             (λ c c', logDriverConfig c' = logDriverConfig c)); [done|].
    unfold firelensEnabled.
    by destruct (Props.fireLensLogging props ≫= Firelens.enabled) as [[]|].
Qed.

Lemma injection_gated_by_flags_witness :
  let statsdOn := Statsd.mk (Some true) None None in
  let firelensOnly :=
    propsWith (Some (agentWith None None None (Some apmOn) (Some statsdOn)))
      (Some (firelensWith (Some true) None None None None)) in
  let agentOnly :=
    propsWith (Some (agentWith (Some true) None None (Some apmOn) (Some statsdOn)))
      (Some (firelensWith (Some false) None None None None)) in
  (∃ c', containers (taskAfter (addDatadogToFargateTask firelensOnly) webTask) !! 0%nat = Some c'
         ∧ environment c' = environment web)
  ∧ (∃ c', containers (taskAfter (addDatadogToFargateTask agentOnly) webTask) !! 0%nat = Some c'
           ∧ logDriverConfig c' = None).
Proof.
  intros statsdOn firelensOnly agentOnly. split.
  - apply (proj1 (injection_gated_by_flags firelensOnly webTask) ltac:(discriminate) 0%nat web).
    reflexivity.
  - apply (proj2 (injection_gated_by_flags agentOnly webTask) ltac:(discriminate) 0%nat web).
    reflexivity.
Defined.

(** ** Propagation under the configured names *)

Lemma propagateStatsdEnvVars_snapshot props cs rest :
  NoDup (containerName <$> cs) →
  propagateStatsdEnvVars props (containerName <$> cs) (mkTask (cs ++ rest))
  = (mkTask ((addEnvironments (statsdWrites props) <$> cs) ++ rest), Normal ()).
Proof.
  intros Hnodup. unfold propagateStatsdEnvVars.
  apply (forOf_snapshot (addEnvironments (statsdWrites props)) _
           (addEnvironments_name _)) with (done := []); [|done].
  intros name t i Hfind. rewrite run_bind, findContainer_run, Hfind.
  apply statsdBody_run.
Qed.

Lemma agent_environment_lookup props k v :
  Options.environment (agentContainerOptions props) !! k = Some v ↔
  (k, v) ∈ [("ECS_FARGATE", "true");
            ("DD_SITE", default "datadoghq.com" (Props.datadogSite props))]
  ∨ (if Js.truthyBool ((Props.agent props ≫= Agent.apm) ≫= Apm.enabled)
     then (k, v) ∈ [("DD_APM_ENABLED", "true"); ("DD_APM_RECEIVER_PORT", apmPort props)]
     else (k, v) = ("DD_APM_ENABLED", "false"))
  ∨ (if Js.truthyBool ((Props.agent props ≫= Agent.statsd) ≫= Statsd.enabled)
     then (k, v) ∈ [("DD_USE_DOGSTATSD", "true"); ("DD_DOGSTATSD_PORT", statsdPort props)]
     else (k, v) = ("DD_USE_DOGSTATSD", "false"))
  ∨ (∃ T, Props.agent props ≫= Agent.tags = Some T ∧ (k, v) = ("DD_TAGS", formatTags T " ")).
Proof.
  unfold agentContainerOptions. cbn [Options.environment]. unfold Js.object.
  destruct (Js.truthyBool ((Props.agent props ≫= Agent.apm) ≫= Apm.enabled)),
    (Js.truthyBool ((Props.agent props ≫= Agent.statsd) ≫= Statsd.enabled)),
    (Props.agent props ≫= Agent.tags) as [T|]; simpl;
    rewrite ?lookup_insert_Some, lookup_empty; set_unfold; naive_solver.
Qed.

(** The task between the two propagation loops, on a valid snapshot. *)
Lemma before_statsdStage props t :
  NoDup (containerNames t) →
  agentEnabled props = true →
  "datadog-agent" ∉ containerNames t →
  ∃ cs2,
    length cs2 = length (containers t)
    ∧ containerName <$> cs2 = containerNames t
    ∧ (∀ i c, containers t !! i = Some c →
         ∃ c2, cs2 !! i = Some c2
               ∧ ∀ k, k ∉ propagatedApmEnvVarNames props →
                      environment c2 !! k = environment c !! k)
    ∧ addDatadogToFargateTask props t
      = (statsdStage props (containerNames t) ;;
         firelensStage props (containerNames t))
          (mkTask (cs2 ++ [agentContainer props])).
Proof.
  intros Hnodup Hon Hfree.
  set (t1 := mkTask (containers t ++ [agentContainer props])).
  assert (∀ cs2, apmStage props (containerNames t) t1
                 = (mkTask (cs2 ++ [agentContainer props]), Normal ()) →
          addDatadogToFargateTask props t
          = (statsdStage props (containerNames t) ;;
             firelensStage props (containerNames t))
              (mkTask (cs2 ++ [agentContainer props]))) as Hrun.
  { intros cs2 Hstage. rewrite run_agent_added by done.
    fold (agentContainer props). fold t1. by rewrite run_bind, Hstage. }
  unfold propagatedApmEnvVarNames. cbv zeta.
  fold (agentEnabled props). rewrite Hon, andb_true_l.
  destruct (Js.truthyBool _ && Js.notStrictlyTrue _) eqn:Hcond.
  - exists (addEnvironments (apmWrites props) <$> containers t).
    split_and!; [by rewrite length_fmap| | |].
    + unfold containerNames. rewrite <- list_fmap_compose. by apply list_fmap_ext.
    + intros i c Hc. exists (addEnvironments (apmWrites props) c).
      rewrite list_lookup_fmap, Hc. split; [done|]. intros k Hk.
      apply addEnvironments_lookup_ne. by rewrite apmWrites_names.
    + apply Hrun. unfold apmStage. cbv zeta. rewrite Hcond. unfold when.
      by apply propagateApmEnvVars_snapshot.
  - exists (containers t). split_and!; [done..| |].
    + intros i c Hc. by exists c.
    + apply Hrun. unfold apmStage. cbv zeta. by rewrite Hcond.
Qed.

(** X7. On a task with unique container names and none called
    "datadog-agent", with [agent.enabled] and [agent.statsd.enabled] true and
    [doNotSet] unset or false: every container present before the call has
    afterwards the StatsD port variable (STATSD_PORT unless overridden) set
    to the stringified port, "8125" when none is configured, and the StatsD
    host variable (STATSD_HOST unless overridden) set to "localhost" unless
    both are given one name; its other variables are as before, apart from
    those the APM loop writes. The agent container is told the same port in
    DD_DOGSTATSD_PORT, with DD_USE_DOGSTATSD "true". *)
Theorem statsd_propagation props t :
  NoDup (containerNames t) →
  "datadog-agent" ∉ containerNames t →
  Props.agent props ≫= Agent.enabled = Some true →
  (Props.agent props ≫= Agent.statsd) ≫= Statsd.enabled = Some true →
  ((Props.agent props ≫= Agent.statsd) ≫= Statsd.applicationEnvVars) ≫= StatsdEnv.doNotSet
    ≠ Some true →
  let t' := taskAfter (addDatadogToFargateTask props) t in
  let vars := (Props.agent props ≫= Agent.statsd) ≫= Statsd.applicationEnvVars in
  let hostName := default "STATSD_HOST" (vars ≫= StatsdEnv.statsdHostEnvVarName) in
  let portName := default "STATSD_PORT" (vars ≫= StatsdEnv.statsdPortEnvVarName) in
  let port :=
    match (Props.agent props ≫= Agent.statsd) ≫= Statsd.port with
    | Some port => Js.String_ port
    | None => "8125"
    end in
  (∀ i c, containers t !! i = Some c →
     ∃ c', containers t' !! i = Some c'
           ∧ containerName c' = containerName c
           ∧ environment c' !! portName = Some port
           ∧ (hostName ≠ portName → environment c' !! hostName = Some "localhost")
           ∧ ∀ k, k ∉ (hostName :: portName :: propagatedApmEnvVarNames props) →
                  environment c' !! k = environment c !! k)
  ∧ ∃ a, containers t' !! length (containers t) = Some a
         ∧ containerName a = "datadog-agent"
         ∧ environment a !! "DD_USE_DOGSTATSD" = Some "true"
         ∧ environment a !! "DD_DOGSTATSD_PORT" = Some port.
Proof.
  intros Hnodup Hfree Hagent Hstatsd HdoNotSet t' vars hostName portName port.
  assert (agentEnabled props = true) as Hon by (by unfold agentEnabled; rewrite Hagent).
  assert (Js.notStrictlyTrue
            (((Props.agent props ≫= Agent.statsd) ≫= Statsd.applicationEnvVars)
               ≫= StatsdEnv.doNotSet) = true) as Hnot.
  { by destruct ((_ ≫= Statsd.applicationEnvVars) ≫= StatsdEnv.doNotSet) as [[]|]. }
  assert (statsdPort props = port) as Hport.
  { unfold statsdPort, port. by destruct ((_ ≫= Agent.statsd) ≫= Statsd.port). }
  split.
  - destruct (before_statsdStage props t Hnodup Hon Hfree)
      as (cs2 & Hlen & Hnames2 & Hcs2 & Hrun).
    set (t3 := mkTask ((addEnvironments (statsdWrites props) <$> cs2)
                         ++ [agentContainer props])).
    assert (preserves (containerNames t) [] t3 t') as Hrest.
    { unfold t', taskAfter. rewrite Hrun, run_bind.
      unfold statsdStage. cbv zeta. rewrite Hstatsd, Hnot.
      unfold when at 1. cbn [Js.truthyBool andb].
      rewrite <- Hnames2.
      rewrite (propagateStatsdEnvVars_snapshot props cs2 [agentContainer props])
        by (by rewrite Hnames2).
      fold t3. apply Preserving_firelensStage. }
    intros i c Hc. destruct (Hcs2 i c Hc) as (c2 & Hc2 & Henv2).
    destruct (Hrest i (addEnvironments (statsdWrites props) c2))
      as (c' & Hc' & Hname & _ & Henv).
    { unfold t3. simpl. apply lookup_app_l_Some. by rewrite list_lookup_fmap, Hc2. }
    assert (containerName c2 = containerName c) as Hname2.
    { apply (f_equal (.!! i)) in Hnames2. unfold containerNames in Hnames2.
      rewrite !list_lookup_fmap, Hc, Hc2 in Hnames2. by injection Hnames2. }
    exists c'. split_and!; [done|by rewrite Hname| | |].
    + rewrite Henv by set_solver. unfold addEnvironments, statsdWrites. simpl.
      fold vars. fold portName. rewrite Hport. apply lookup_insert_eq.
    + intros Hne. rewrite Henv by set_solver.
      unfold addEnvironments, statsdWrites. simpl.
      fold vars. fold portName hostName.
      rewrite lookup_insert_ne by done. apply lookup_insert_eq.
    + intros k Hk. rewrite Henv by set_solver.
      rewrite addEnvironments_lookup_ne by (rewrite statsdWrites_names; set_solver).
      apply Henv2. set_solver.
  - exists (agentContainer props). split_and!; [by apply agent_container_added|done|..];
      apply agent_environment_lookup; right; right; left;
      rewrite Hstatsd, Hport; set_solver.
Qed.

Lemma statsd_propagation_witness :
  let vars := StatsdEnv.mk None (Some "METRICS_HOST") None in
  let props :=
    propsWith
      (Some (agentWith (Some true) None None None
               (Some (Statsd.mk (Some true) (Some 9125) (Some vars)))))
      None in
  let t' := taskAfter (addDatadogToFargateTask props) webTask in
  (∃ c', containers t' !! 0%nat = Some c'
         ∧ containerName c' = "web"
         ∧ environment c' !! "STATSD_PORT" = Some "9125"
         ∧ environment c' !! "METRICS_HOST" = Some "localhost"
         ∧ environment c' !! "PORT" = Some "8080")
  ∧ ∃ a, containers t' !! 1%nat = Some a
         ∧ containerName a = "datadog-agent"
         ∧ environment a !! "DD_USE_DOGSTATSD" = Some "true"
         ∧ environment a !! "DD_DOGSTATSD_PORT" = Some "9125".
Proof.
  intros vars props t'.
  destruct (statsd_propagation props webTask) as [Hsiblings Hagent];
    [compute_done|compute_done|reflexivity|reflexivity|discriminate|].
  split; [|exact Hagent].
  destruct (Hsiblings 0%nat web eq_refl) as (c' & Hc' & Hname & Hport & Hhost & Hrest).
  exists c'. split_and!; [exact Hc'|exact Hname|exact Hport|by apply Hhost|].
  rewrite Hrest; [reflexivity|]. vm_compute. set_solver.
Defined.

(** X8. On a task with unique container names and none called
    "datadog-agent", with [agent.enabled] and [agent.apm.enabled] true and
    [doNotSet] unset or false, the three APM variables are written under the
    configured names: every container present before the call has afterwards
    the port variable set to the stringified port ("8126" when none is
    configured), the host variable set to "localhost" and the trace-enabled
    variable set to "true", each provided no later write of the APM loop
    and no write of the StatsD loop goes under the same name. The agent
    container is told the same port in DD_APM_RECEIVER_PORT, with
    DD_APM_ENABLED "true". *)
Theorem apm_variables_under_configured_names props t :
  NoDup (containerNames t) →
  "datadog-agent" ∉ containerNames t →
  Props.agent props ≫= Agent.enabled = Some true →
  (Props.agent props ≫= Agent.apm) ≫= Apm.enabled = Some true →
  ((Props.agent props ≫= Agent.apm) ≫= Apm.applicationEnvVars) ≫= ApmEnv.doNotSet
    ≠ Some true →
  let t' := taskAfter (addDatadogToFargateTask props) t in
  let vars := (Props.agent props ≫= Agent.apm) ≫= Apm.applicationEnvVars in
  let traceName := default "DD_TRACE_ENABLED" (vars ≫= ApmEnv.apmTraceEnabledEnvVarName) in
  let hostName := default "DD_AGENT_HOST" (vars ≫= ApmEnv.apmHostEnvVarName) in
  let portName := default "DD_TRACE_AGENT_PORT" (vars ≫= ApmEnv.apmPortEnvVarName) in
  let port :=
    match (Props.agent props ≫= Agent.apm) ≫= Apm.port with
    | Some port => Js.String_ port
    | None => "8126"
    end in
  (∀ i c, containers t !! i = Some c →
     ∃ c', containers t' !! i = Some c'
           ∧ containerName c' = containerName c
           ∧ (portName ∉ propagatedStatsdEnvVarNames props →
              environment c' !! portName = Some port)
           ∧ (hostName ∉ portName :: propagatedStatsdEnvVarNames props →
              environment c' !! hostName = Some "localhost")
           ∧ (traceName ∉ hostName :: portName :: propagatedStatsdEnvVarNames props →
              environment c' !! traceName = Some "true"))
  ∧ ∃ a, containers t' !! length (containers t) = Some a
         ∧ containerName a = "datadog-agent"
         ∧ environment a !! "DD_APM_ENABLED" = Some "true"
         ∧ environment a !! "DD_APM_RECEIVER_PORT" = Some port.
Proof.
  intros Hnodup Hfree Hagent Hapm HdoNotSet t' vars traceName hostName portName port.
  assert (agentEnabled props = true) as Hon by (by unfold agentEnabled; rewrite Hagent).
  assert (apmPort props = port) as Hport.
  { unfold apmPort, port. by destruct ((_ ≫= Agent.apm) ≫= Apm.port). }
  split.
  - assert (apmStage props (containerNames t)
            = propagateApmEnvVars props (containerNames t)) as Hstage.
    { unfold apmStage. cbv zeta. rewrite Hapm. simpl.
      by destruct ((_ ≫= Apm.applicationEnvVars) ≫= ApmEnv.doNotSet) as [[]|]. }
    set (t2 := mkTask ((addEnvironments (apmWrites props) <$> containers t)
                         ++ [agentContainer props])).
    assert (preserves (containerNames t) (propagatedStatsdEnvVarNames props) t2 t')
      as Hrest.
    { unfold t', taskAfter. rewrite run_agent_added by done.
      fold (agentContainer props). rewrite run_bind, Hstage. unfold containerNames.
      rewrite (propagateApmEnvVars_snapshot props (containers t)
                 [agentContainer props] Hnodup).
      fold t2. fold (containerNames t).
      apply (Preserving_bind _ _ (statsdStage props (containerNames t)));
        [by apply Preserving_statsdStage|].
      intros _. apply Preserving_firelensStage. }
    intros i c Hc.
    destruct (Hrest i (addEnvironments (apmWrites props) c))
      as (c' & Hc' & Hname & _ & Henv).
    { unfold t2. simpl. apply lookup_app_l_Some. by rewrite list_lookup_fmap, Hc. }
    exists c'. split_and!; [done..| | |].
    + intros Hfree'. rewrite Henv by done.
      unfold addEnvironments, apmWrites. simpl. fold vars. fold portName.
      rewrite Hport. apply lookup_insert_eq.
    + intros Hfree'. rewrite Henv by set_solver.
      unfold addEnvironments, apmWrites. simpl. fold vars. fold portName hostName.
      rewrite lookup_insert_ne by set_solver. apply lookup_insert_eq.
    + intros Hfree'. rewrite Henv by set_solver.
      unfold addEnvironments, apmWrites. simpl.
      fold vars. fold portName hostName traceName.
      rewrite !lookup_insert_ne by set_solver. apply lookup_insert_eq.
  - exists (agentContainer props). split_and!; [by apply agent_container_added|done|..];
      apply agent_environment_lookup; right; left;
      rewrite Hapm, Hport; set_solver.
Qed.

Lemma apm_variables_under_configured_names_witness :
  let vars := ApmEnv.mk None (Some "TRACE_HOST") (Some "TRACE_PORT") None in
  let props :=
    propsWith
      (Some (agentWith (Some true) None None
               (Some (Apm.mk (Some true) (Some 9126) (Some vars)))
               (Some (Statsd.mk (Some true) None None))))
      None in
  let t' := taskAfter (addDatadogToFargateTask props) webTask in
  (∃ c', containers t' !! 0%nat = Some c'
         ∧ containerName c' = "web"
         ∧ environment c' !! "TRACE_PORT" = Some "9126"
         ∧ environment c' !! "TRACE_HOST" = Some "localhost"
         ∧ environment c' !! "DD_TRACE_ENABLED" = Some "true")
  ∧ ∃ a, containers t' !! 1%nat = Some a
         ∧ containerName a = "datadog-agent"
         ∧ environment a !! "DD_APM_ENABLED" = Some "true"
         ∧ environment a !! "DD_APM_RECEIVER_PORT" = Some "9126".
Proof.
  intros vars props t'.
  destruct (apm_variables_under_configured_names props webTask) as [Hsiblings Hagent];
    [compute_done|compute_done|reflexivity|reflexivity|discriminate|].
  split; [|exact Hagent].
  destruct (Hsiblings 0%nat web eq_refl) as (c' & Hc' & Hname & Hport & Hhost & Htrace).
  exists c'. split_and!; [exact Hc'|exact Hname|..];
    [apply Hport|apply Hhost|apply Htrace]; vm_compute; set_solver.
Defined.

(** ** The sidecars *)

(** X9. Nothing is rolled back when the Firelens step fails: with the agent
    enabled and its name free, and Firelens logging enabled on a task that
    already has a log router or a container called "log_router", the call
    throws, and the task it leaves has the "datadog-agent" container added
    after the containers it had, and no log router added. *)
Theorem agent_stays_when_firelens_fails props t :
  Props.agent props ≫= Agent.enabled = Some true →
  "datadog-agent" ∉ containerNames t →
  Props.fireLensLogging props ≫= Firelens.enabled = Some true →
  hasFirelensRouter t = true ∨ "log_router" ∈ containerNames t →
  let t' := taskAfter (addDatadogToFargateTask props) t in
  (∃ e, completion (addDatadogToFargateTask props) t = Throw e)
  ∧ containerNames t' = (containerNames t ++ ["datadog-agent"])%list
  ∧ containers t' !! length (containers t)
    = Some (newContainer "datadog-agent" (agentContainerOptions props)).
Proof.
  intros Hagent Hfree Hfirelens Hblocked t'. unfold t', completion, taskAfter.
  destruct (addDatadogToFargateTask_run props t) as (t2 & -> & Hskel & Hadded). simpl.
  revert Hskel Hadded. unfold helperOutcome, addedSidecars, routerPart, firelensOutcome.
  unfold agentEnabled, firelensEnabled. rewrite Hagent, Hfirelens. simpl.
  rewrite bool_decide_eq_false_2 by done.
  assert ((if hasFirelensRouter t then Throw FirelensRouterAlreadyAdded
           else if bool_decide ("log_router" ∈ containerNames t)
                then Throw (DuplicateContainerName "log_router")
                else Normal ())
          ≠ Normal ()) as Hthrows.
  { destruct Hblocked as [->|Hin]; [done|].
    rewrite (bool_decide_eq_true_2 _ Hin). by destruct (hasFirelensRouter t). }
  destruct (if hasFirelensRouter t then _ else _) as [[]|e]; [done|].
  intros Hskel Hadded. split_and!; [by exists e| |].
  - by rewrite <- !skeleton_names, Hskel, fmap_app.
  - rewrite <- (Nat.add_0_r (length (containers t))). by apply Hadded.
Qed.

Lemma agent_stays_when_firelens_fails_witness :
  let props :=
    propsWith (Some (agentWith (Some true) None None None None))
      (Some (firelensWith (Some true) None None None None)) in
  let t := mkTask [web; newContainer "log_router" (logRouterOptions props)] in
  let t' := taskAfter (addDatadogToFargateTask props) t in
  (∃ e, completion (addDatadogToFargateTask props) t = Throw e)
  ∧ containerNames t' = ["web"; "log_router"; "datadog-agent"]
  ∧ containers t' !! 2%nat
    = Some (newContainer "datadog-agent" (agentContainerOptions props)).
Proof.
  intros props t.
  apply (agent_stays_when_firelens_fails props t);
    [reflexivity|compute_done|reflexivity|by left].
Defined.

(** X10. When the call returns normally with the agent and Firelens logging
    both enabled, the task ends with exactly two more containers, the agent
    and then the log router, as built from their definitions: the loops,
    which go by the snapshot taken on entry, write to neither. The agent has
    the CloudWatch log driver or none, never the Firelens driver, and the
    environment of its definition; the router has no log driver and an empty
    environment. *)
Theorem sidecars_left_as_built props t :
  Props.agent props ≫= Agent.enabled = Some true →
  Props.fireLensLogging props ≫= Firelens.enabled = Some true →
  completion (addDatadogToFargateTask props) t = Normal () →
  let t' := taskAfter (addDatadogToFargateTask props) t in
  ∃ a r,
    drop (length (containers t)) (containers t') = [a; r]
    ∧ containerName a = "datadog-agent"
    ∧ containerName r = "log_router"
    ∧ logDriverConfig a
      = (if Js.truthyBool (Props.agent props ≫= Agent.logToCloudWatch)
         then Some (awsLogs "datadog-agent") else None)
    ∧ logDriverConfig a ≠ Some (firelensLogDriver props)
    ∧ environment a = Options.environment (agentContainerOptions props)
    ∧ logDriverConfig r = None
    ∧ environment r = ∅
    ∧ firelensRouter r = Some (mkFirelensConfig FLUENTBIT (Some true)).
Proof.
  intros Hagent Hfirelens. unfold completion, taskAfter.
  destruct (addDatadogToFargateTask_run props t) as (t' & -> & Hskel & Hadded). simpl.
  revert Hskel Hadded. unfold helperOutcome, addedSidecars, routerPart, firelensOutcome.
  unfold agentEnabled, firelensEnabled. rewrite Hagent, Hfirelens. simpl.
  destruct (bool_decide ("datadog-agent" ∈ containerNames t)); [done|].
  destruct (hasFirelensRouter t); [done|].
  destruct (bool_decide ("log_router" ∈ containerNames t)); [done|].
  intros Hskel Hadded _.
  pose proof (skeleton_length _ _ _ Hskel) as Hlen. simpl in Hlen.
  exists (agentContainer props), (logRouterContainer props).
  assert (logDriverConfig (agentContainer props)
          = (if Js.truthyBool (Props.agent props ≫= Agent.logToCloudWatch)
             then Some (awsLogs "datadog-agent") else None)) as Hlogging.
  { unfold agentContainer, newContainer, agentContainerOptions. simpl.
    by destruct (Js.truthyBool _). }
  split_and!; [|done..| |done|done|done|done].
  - apply list_eq. intros j. rewrite lookup_drop.
    destruct j as [|[|j]]; [by apply Hadded..|].
    simpl. apply lookup_ge_None. lia.
  - rewrite Hlogging. by destruct (Js.truthyBool _).
Qed.

Lemma sidecars_left_as_built_witness :
  let props :=
    propsWith (Some (Agent.mk (Some true) None None None None (Some true) None None None))
      (Some (firelensWith (Some true) None None None None)) in
  let t' := taskAfter (addDatadogToFargateTask props) webTask in
  ∃ a r,
    drop 1 (containers t') = [a; r]
    ∧ containerName a = "datadog-agent"
    ∧ containerName r = "log_router"
    ∧ logDriverConfig a = Some (awsLogs "datadog-agent")
    ∧ logDriverConfig a ≠ Some (firelensLogDriver props)
    ∧ environment a = Options.environment (agentContainerOptions props)
    ∧ logDriverConfig r = None
    ∧ environment r = ∅
    ∧ firelensRouter r = Some (mkFirelensConfig FLUENTBIT (Some true)).
Proof.
  intros props.
  apply (sidecars_left_as_built props webTask); reflexivity.
Defined.

(** X11. With the agent enabled on a task where "datadog-agent" is free,
    however the call completes, the container after those the task had is the
    agent: its memory limit is [agent.memoryLimitMiB], 256 when unset and an
    explicit 0 kept; its only secret is DD_API_KEY, the Datadog API key
    secret; it has the CloudWatch log driver with stream prefix
    "datadog-agent" exactly when [agent.logToCloudWatch] is true and no log
    driver otherwise; and it is not a log router. *)
Theorem agent_container_resolution props t :
  Props.agent props ≫= Agent.enabled = Some true →
  "datadog-agent" ∉ containerNames t →
  ∃ a, containers (taskAfter (addDatadogToFargateTask props) t)
         !! length (containers t) = Some a
       ∧ containerName a = "datadog-agent"
       ∧ memoryLimitMiB a
         = Some (match Props.agent props ≫= Agent.memoryLimitMiB with
                 | Some limit => limit
                 | None => 256
                 end)
       ∧ secrets a = {[ "DD_API_KEY" := Props.datadogApiKeySecret props ]}
       ∧ logDriverConfig a
         = (if decide (Props.agent props ≫= Agent.logToCloudWatch = Some true)
            then Some (awsLogs "datadog-agent") else None)
       ∧ firelensRouter a = None.
Proof.
  intros Hagent Hfree. exists (agentContainer props).
  split; [apply agent_container_added; [by rewrite Hagent|done]|].
  unfold agentContainer, newContainer, agentContainerOptions. simpl.
  split_and!; [done| |done| |done].
  - by destruct (Props.agent props ≫= Agent.memoryLimitMiB).
  - by destruct (Props.agent props ≫= Agent.logToCloudWatch) as [[]|].
Qed.

Lemma agent_container_resolution_witness :
  let props :=
    propsWith (Some (Agent.mk (Some true) None None (Some 0) None (Some true) None None None))
      None in
  ∃ a, containers (taskAfter (addDatadogToFargateTask props) webTask) !! 1%nat = Some a
       ∧ containerName a = "datadog-agent"
       ∧ memoryLimitMiB a = Some 0
       ∧ secrets a = {[ "DD_API_KEY" := apiKey ]}
       ∧ logDriverConfig a = Some (awsLogs "datadog-agent")
       ∧ firelensRouter a = None.
Proof.
  intros props.
  apply (agent_container_resolution props webTask); [reflexivity|compute_done].
Defined.

(** X12. When the call returns normally with Firelens logging enabled, the
    last container of the task is the log router, called "log_router": its
    image is the explicit [fireLensLogging.image] when there is one and
    otherwise "public.ecr.aws/aws-observability/aws-for-fluent-bit:"
    followed by [fireLensLogging.imageTag] ("latest" when unset); its memory
    limit is [fireLensLogging.memoryLimitMiB], 256 when unset and an explicit
    0 kept; its CPU reservation is [fireLensLogging.cpu] unless that is 0 or
    unset, in which case it has none. *)
Theorem log_router_resolution props t :
  Props.fireLensLogging props ≫= Firelens.enabled = Some true →
  completion (addDatadogToFargateTask props) t = Normal () →
  let firelens := Props.fireLensLogging props in
  ∃ r, last (containers (taskAfter (addDatadogToFargateTask props) t)) = Some r
       ∧ containerName r = "log_router"
       ∧ image r
         = match firelens ≫= Firelens.image with
           | Some explicit => explicit
           | None =>
               fromRegistry
                 ("public.ecr.aws/aws-observability/aws-for-fluent-bit:"
                    ++ default "latest" (firelens ≫= Firelens.imageTag))
           end
       ∧ memoryLimitMiB r
         = Some (match firelens ≫= Firelens.memoryLimitMiB with
                 | Some limit => limit
                 | None => 256
                 end)
       ∧ cpu r
         = match firelens ≫= Firelens.cpu with
           | Some 0 | None => None
           | Some units => Some units
           end.
Proof.
  intros Hfirelens Hdone firelens. unfold completion in Hdone. unfold taskAfter.
  destruct (addDatadogToFargateTask_run props t) as (t' & Hrun & Hskel & Hadded).
  rewrite Hrun in Hdone |- *. simpl in Hdone |- *.
  exists (logRouterContainer props).
  assert (∃ j, addedSidecars props t !! j = Some (logRouterContainer props)
               ∧ length (addedSidecars props t) = S j) as (j & Hj & Hlenj).
  { revert Hdone. unfold helperOutcome, addedSidecars, routerPart, firelensOutcome.
    unfold firelensEnabled. rewrite Hfirelens. simpl.
    destruct (agentEnabled props), (bool_decide ("datadog-agent" ∈ containerNames t)),
      (hasFirelensRouter t), (bool_decide ("log_router" ∈ containerNames t));
      try done; intros _; first [by exists 1%nat | by exists 0%nat]. }
  split_and!.
  - rewrite last_lookup.
    rewrite (skeleton_length _ _ _ Hskel), length_fmap, Hlenj.
    replace (pred (length (containers t) + S j)) with (length (containers t) + j)%nat
      by lia.
    by apply Hadded.
  - done.
  - unfold logRouterContainer, newContainer, logRouterOptions. simpl. fold firelens.
    by destruct (firelens ≫= Firelens.image).
  - unfold logRouterContainer, newContainer, logRouterOptions. simpl. fold firelens.
    by destruct (firelens ≫= Firelens.memoryLimitMiB).
  - unfold logRouterContainer, newContainer, logRouterOptions. simpl. fold firelens.
    by destruct (firelens ≫= Firelens.cpu) as [[]|].
Qed.

Lemma log_router_resolution_witness :
  let props :=
    propsWith None
      (Some (Firelens.mk (Some true) None None None (Some 0) (Some 0) None (Some "2.32.0"))) in
  ∃ r, last (containers (taskAfter (addDatadogToFargateTask props) webTask)) = Some r
       ∧ containerName r = "log_router"
       ∧ image r = fromRegistry "public.ecr.aws/aws-observability/aws-for-fluent-bit:2.32.0"
       ∧ memoryLimitMiB r = Some 0
       ∧ cpu r = None.
Proof.
  intros props. apply (log_router_resolution props webTask); reflexivity.
Defined.

(** ** What the sidecars are told *)

(** X13. For every configuration the agent container's environment holds
    exactly: ECS_FARGATE "true"; DD_SITE, the configured site or
    "datadoghq.com"; DD_APM_ENABLED "true" with DD_APM_RECEIVER_PORT when
    [apm.enabled] is true and DD_APM_ENABLED "false" alone otherwise;
    DD_USE_DOGSTATSD "true" with DD_DOGSTATSD_PORT when [statsd.enabled] is
    true and DD_USE_DOGSTATSD "false" alone otherwise; and DD_TAGS whenever a
    tag mapping is given, the empty mapping included. *)
Theorem agent_environment_exact props k v :
  let agent := Props.agent props in
  Options.environment (agentContainerOptions props) !! k = Some v ↔
  (k = "ECS_FARGATE" ∧ v = "true")
  ∨ (k = "DD_SITE" ∧ v = default "datadoghq.com" (Props.datadogSite props))
  ∨ (k = "DD_APM_ENABLED"
     ∧ v = if Js.truthyBool ((agent ≫= Agent.apm) ≫= Apm.enabled)
           then "true" else "false")
  ∨ (k = "DD_APM_RECEIVER_PORT"
     ∧ Js.truthyBool ((agent ≫= Agent.apm) ≫= Apm.enabled) = true
     ∧ v = default "8126" (Js.String_ <$> (agent ≫= Agent.apm) ≫= Apm.port))
  ∨ (k = "DD_USE_DOGSTATSD"
     ∧ v = if Js.truthyBool ((agent ≫= Agent.statsd) ≫= Statsd.enabled)
           then "true" else "false")
  ∨ (k = "DD_DOGSTATSD_PORT"
     ∧ Js.truthyBool ((agent ≫= Agent.statsd) ≫= Statsd.enabled) = true
     ∧ v = default "8125" (Js.String_ <$> (agent ≫= Agent.statsd) ≫= Statsd.port))
  ∨ (k = "DD_TAGS" ∧ ∃ T, agent ≫= Agent.tags = Some T ∧ v = formatTags T " ").
Proof.
  intros agent. rewrite agent_environment_lookup. fold agent.
  unfold apmPort, statsdPort. fold agent.
  destruct (Js.truthyBool ((agent ≫= Agent.apm) ≫= Apm.enabled)),
    (Js.truthyBool ((agent ≫= Agent.statsd) ≫= Statsd.enabled));
    set_unfold; naive_solver.
Qed.

Lemma firelens_options_lookup props k v :
  firelensOptions props !! k = Some v ↔
  (k, v) ∈ [("Name", "datadog");
            ("Host", "http-intake.logs."
                       ++ default "datadoghq.com" (Props.datadogSite props));
            ("TLS", "on"); ("provider", "ecs"); ("dd_message_key", "log")]
  ∨ (k = "dd_service" ∧ v ≠ ""
     ∧ Props.fireLensLogging props ≫= Firelens.service = Some v)
  ∨ (k = "dd_source" ∧ v ≠ ""
     ∧ Props.fireLensLogging props ≫= Firelens.source = Some v)
  ∨ (k = "dd_tags"
     ∧ ∃ T, Props.fireLensLogging props ≫= Firelens.tags = Some T
            ∧ v = formatTags T ",").
Proof.
  unfold firelensOptions, Js.object.
  destruct (Props.fireLensLogging props ≫= Firelens.service) as [[|a service]|],
    (Props.fireLensLogging props ≫= Firelens.source) as [[|b source]|],
    (Props.fireLensLogging props ≫= Firelens.tags) as [T|]; simpl;
    rewrite ?lookup_insert_Some, lookup_empty; set_unfold; naive_solver.
Qed.

(** X14. For every configuration the options of the Firelens log driver are
    exactly: Name "datadog", Host "http-intake.logs." followed by the site,
    TLS "on", provider "ecs", dd_message_key "log"; dd_service and dd_source
    when the service and the source are set and not the empty string; and
    dd_tags whenever a tag mapping is given, the empty mapping included. The
    only secret option is apikey, the Datadog API key secret. *)
Theorem firelens_options_exact props k v :
  let logging := Props.fireLensLogging props in
  (firelensOptions props !! k = Some v ↔
   (k = "Name" ∧ v = "datadog")
   ∨ (k = "Host"
      ∧ v = "http-intake.logs." ++ default "datadoghq.com" (Props.datadogSite props))
   ∨ (k = "TLS" ∧ v = "on")
   ∨ (k = "provider" ∧ v = "ecs")
   ∨ (k = "dd_message_key" ∧ v = "log")
   ∨ (k = "dd_service" ∧ v ≠ "" ∧ logging ≫= Firelens.service = Some v)
   ∨ (k = "dd_source" ∧ v ≠ "" ∧ logging ≫= Firelens.source = Some v)
   ∨ (k = "dd_tags" ∧ ∃ T, logging ≫= Firelens.tags = Some T ∧ v = formatTags T ","))
  ∧ firelensLogDriver props
    = firelens (firelensOptions props)
        {[ "apikey" := Props.datadogApiKeySecret props ]}.
Proof.
  intros logging. split; [|reflexivity].
  rewrite firelens_options_lookup. fold logging. set_unfold. naive_solver.
Qed.

(** ** Flattening of tags, continued *)

Lemma string_app_assoc (s1 s2 s3 : string) : (s1 ++ s2) ++ s3 = s1 ++ s2 ++ s3.
Proof.
  induction s1 as [|a s1 IH]; [done|].
  change (String a ((s1 ++ s2) ++ s3) = String a (s1 ++ s2 ++ s3)). by f_equal.
Qed.

Lemma concat_app_nonempty sep (xs ys : list string) :
  xs ≠ [] → ys ≠ [] →
  String.concat sep (xs ++ ys) = String.concat sep xs ++ sep ++ String.concat sep ys.
Proof.
  intros Hxs Hys. induction xs as [|x [|x' xs] IH]; [done| |].
  - destruct ys as [|y ys]; [done|]. reflexivity.
  - change ((x :: x' :: xs) ++ ys)%list with (x :: ((x' :: xs) ++ ys))%list.
    change (((x' :: xs) ++ ys))%list with (x' :: (xs ++ ys))%list at 1.
    rewrite concat_cons2.
    change (x' :: (xs ++ ys))%list with ((x' :: xs) ++ ys)%list.
    rewrite IH by done. rewrite concat_cons2.
    by rewrite !string_app_assoc.
Qed.

(** X15. [formatTags] distributes over the concatenation of two non-empty
    lists of entries, putting exactly one separator between the two parts. *)
Theorem formatTags_app (T1 T2 : Tags) sep :
  T1 ≠ [] → T2 ≠ [] →
  formatTags (T1 ++ T2)%list sep = formatTags T1 sep ++ sep ++ formatTags T2 sep.
Proof.
  intros H1 H2. unfold formatTags, Js.join. rewrite fmap_app.
  apply concat_app_nonempty; by destruct T1, T2.
Qed.

Lemma formatTags_app_witness :
  formatTags ([("env", "prod")] ++ [("team", "core"); ("tier", "web")])%list ","
  = "env:prod" ++ "," ++ "team:core,tier:web".
Proof. apply (formatTags_app [("env", "prod")] [("team", "core"); ("tier", "web")]); done. Defined.

(** ** The loops on any list of names *)

(** X16. On every task and every list of names, stale or not, the APM and
    StatsD loops complete normally; the Firelens binding loop completes
    normally exactly when every name of the list is the name of a container
    of the task, and throws a TypeError otherwise. None of the three changes
    the number, order, or names of the containers. *)
Theorem loops_on_any_names props names t :
  completion (propagateApmEnvVars props names) t = Normal ()
  ∧ completion (propagateStatsdEnvVars props names) t = Normal ()
  ∧ (completion (bindFirelensLogDriver props names) t = Normal ()
     ↔ ∀ name, name ∈ names → name ∈ containerNames t)
  ∧ (completion (bindFirelensLogDriver props names) t = Throw TypeError
     ↔ ∃ name, name ∈ names ∧ name ∉ containerNames t)
  ∧ containerNames (taskAfter (propagateApmEnvVars props names) t) = containerNames t
  ∧ containerNames (taskAfter (propagateStatsdEnvVars props names) t) = containerNames t
  ∧ containerNames (taskAfter (bindFirelensLogDriver props names) t) = containerNames t.
Proof.
  unfold completion, taskAfter.
  destruct (propagateApmEnvVars_completes props names t) as (t1 & -> & H1).
  destruct (propagateStatsdEnvVars_completes props names t) as (t2 & -> & H2).
  destruct (bindFirelensLogDriver_completion props names t) as (t3 & -> & H3).
  simpl.
  assert (∀ t', skeleton t' = skeleton t → containerNames t' = containerNames t)
    as Hnames by (intros t' Ht'; by rewrite <- !skeleton_names, Ht').
  split_and!; [done|done| | |by apply Hnames..].
  - destruct (decide (Forall _ names)) as [Hall|Hnot].
    + split; [|done]. intros _. by apply Forall_forall.
    + split; [done|]. intros Hall. destruct Hnot. by apply Forall_forall.
  - destruct (decide (Forall _ names)) as [Hall|Hnot].
    + split; [done|]. intros (name & Hin & Hout). destruct Hout.
      by eapply (proj1 (Forall_forall _ _) Hall).
    + split; [|done]. intros _.
      apply not_Forall_Exists, Exists_exists in Hnot; [done|apply _].
Qed.

(** * The daemon service for EC2 clusters *)

(** The one container of a task, if it has exactly one. *)
Lemma daemon_task_shape props :
  ∃ mps vols,
    Ec2.taskDefinition (Ec2.DatadogEcsDaemonService props)
    = Ec2.mkTask (Some "datadog-agent-task") None None
        [Ec2.mkContainer "datadog-agent" (Ec2.daemonContainerOptions props) mps] vols
    ∧ mps = (Ec2.hostMountPoints
             ++ if Js.truthyBool (Ec2.Daemon.logs props ≫= Ec2.Logs.enabled)
                then Ec2.logMountPoints else [])%list
    ∧ vols = ([Ec2.mkVolume "docker_sock" "/var/run/docker.sock";
               Ec2.mkVolume "proc" "/proc/";
               Ec2.mkVolume "cgroup" "/sys/fs/cgroup/"]
              ++ if Js.truthyBool (Ec2.Daemon.logs props ≫= Ec2.Logs.enabled)
                 then [Ec2.mkVolume "pointdir" "/opt/datadog-agent/run";
                       Ec2.mkVolume "containers_root" "/var/lib/docker/containers"]
                 else [])%list.
Proof.
  unfold Ec2.DatadogEcsDaemonService.
  destruct (Js.truthyBool (Ec2.Daemon.logs props ≫= Ec2.Logs.enabled));
    eexists _, _; (split; [reflexivity|]); split; reflexivity.
Qed.

Lemma daemon_v1_task_shape props :
  ∃ mps vols,
    Ec2.taskDefinition (Ec2.EcsDatadogDaemonService props)
    = Ec2.mkTask (Some "datadog-agent-task") None None
        [Ec2.mkContainer "datadog-agent" (Ec2.daemonContainerOptionsV1 props) mps] vols
    ∧ mps = (Ec2.hostMountPoints
             ++ if Js.truthyBool (Ec2.DaemonV1.logsDisabled props)
                then [] else Ec2.logMountPoints)%list
    ∧ vols = ([Ec2.mkVolume "docker_sock" "/var/run/docker.sock";
               Ec2.mkVolume "proc" "/proc/";
               Ec2.mkVolume "cgroup" "/sys/fs/cgroup/"]
              ++ if Js.truthyBool (Ec2.DaemonV1.logsDisabled props)
                 then []
                 else [Ec2.mkVolume "pointdir" "/opt/datadog-agent/run";
                       Ec2.mkVolume "containers_root" "/var/lib/docker/containers"])%list.
Proof.
  unfold Ec2.EcsDatadogDaemonService.
  destruct (Js.truthyBool (Ec2.DaemonV1.logsDisabled props));
    eexists _, _; (split; [reflexivity|]); split; reflexivity.
Qed.

(** X17. For every configuration of the daemon service, the task has the
    single container "datadog-agent", and the volumes its mount points refer
    to are exactly the volumes the task declares, each mounted once, at a
    container path of its own, and declared once: no mount point names a
    volume that is missing and no declared volume is left unmounted, with
    log collection on or off. *)
Theorem daemon_mounts_match_volumes props :
  let t := Ec2.taskDefinition (Ec2.DatadogEcsDaemonService props) in
  (Ec2.containerName <$> Ec2.containers t) = ["datadog-agent"]
  ∧ mountsMatchVolumes t
  ∧ NoDup (Ec2.containerPath <$> (Ec2.containers t ≫= Ec2.mountPoints)).
Proof.
  intros t. unfold t, mountsMatchVolumes.
  destruct (daemon_task_shape props) as (mps & vols & -> & -> & ->).
  destruct (Js.truthyBool (Ec2.Daemon.logs props ≫= Ec2.Logs.enabled));
    cbn; split_and!; try done;
    try (repeat (apply NoDup_cons; split; [set_solver|]); apply NoDup_nil_2);
    set_solver.
Qed.

Lemma daemon_environment_lookup props k v :
  Ec2.Options.environment (Ec2.daemonContainerOptions props) !! k = Some v ↔
  (k = "DD_SITE" ∧ v = default "datadoghq.com" (Ec2.Daemon.datadogSite props))
  ∨ (Js.truthyBool (Ec2.Daemon.logs props ≫= Ec2.Logs.enabled) = true
     ∧ ((k = "DD_LOGS_ENABLED" ∧ v = "true")
        ∨ (k = "DD_LOGS_CONFIG_CONTAINER_COLLECT_ALL"
           ∧ v = if Ec2.notStrictlyFalse
                     (Ec2.Daemon.logs props ≫= Ec2.Logs.collectFromAllContainers)
                 then "true" else "false")
        ∨ (k = "DD_CONTAINER_EXCLUDE" ∧ v = "name:datadog-agent"
           ∧ Js.truthyBool
               (Ec2.Daemon.logs props ≫= Ec2.Logs.collectFromAgentContainer) = false))).
Proof.
  unfold Ec2.daemonContainerOptions. cbn [Ec2.Options.environment]. unfold Js.object.
  destruct (Js.truthyBool (Ec2.Daemon.logs props ≫= Ec2.Logs.enabled)),
    (Js.truthyBool (Ec2.Daemon.logs props ≫= Ec2.Logs.collectFromAgentContainer));
    simpl; rewrite ?lookup_insert_Some, lookup_empty; naive_solver.
Qed.

(** X18. For every configuration of the daemon service the agent's
    environment holds exactly: DD_SITE, the configured site or
    "datadoghq.com"; and, only when [logs.enabled] is true, DD_LOGS_ENABLED
    "true", DD_LOGS_CONFIG_CONTAINER_COLLECT_ALL, which is "false" when
    [collectFromAllContainers] is false and "true" when it is true or unset,
    and DD_CONTAINER_EXCLUDE, present unless [collectFromAgentContainer] is
    true and then excluding by name the very container the task defines. *)
Theorem daemon_environment_exact props k v :
  let logs := Ec2.Daemon.logs props in
  let t := Ec2.taskDefinition (Ec2.DatadogEcsDaemonService props) in
  ∃ c, Ec2.containers t = [c]
       ∧ (Ec2.Options.environment (Ec2.options c) !! k = Some v ↔
          (k = "DD_SITE" ∧ v = default "datadoghq.com" (Ec2.Daemon.datadogSite props))
          ∨ (logs ≫= Ec2.Logs.enabled = Some true
             ∧ ((k = "DD_LOGS_ENABLED" ∧ v = "true")
                ∨ (k = "DD_LOGS_CONFIG_CONTAINER_COLLECT_ALL"
                   ∧ v = if decide (logs ≫= Ec2.Logs.collectFromAllContainers = Some false)
                         then "false" else "true")
                ∨ (k = "DD_CONTAINER_EXCLUDE"
                   ∧ v = "name:" ++ Ec2.containerName c
                   ∧ logs ≫= Ec2.Logs.collectFromAgentContainer ≠ Some true)))).
Proof.
  intros logs t. unfold t.
  destruct (daemon_task_shape props) as (mps & vols & -> & _ & _).
  eexists. split; [reflexivity|]. cbn [Ec2.options Ec2.containerName].
  rewrite daemon_environment_lookup. fold logs.
  destruct (logs ≫= Ec2.Logs.enabled) as [[]|],
    (logs ≫= Ec2.Logs.collectFromAllContainers) as [[]|],
    (logs ≫= Ec2.Logs.collectFromAgentContainer) as [[]|];
    simpl; repeat case_decide; naive_solver.
Qed.

(** X19. In the daemon service the log directories are mounted exactly when
    the agent is told to collect logs: DD_LOGS_ENABLED is in the
    environment, the "pointdir" and "containers_root" volumes are mounted,
    and both are declared, all exactly when [logs.enabled] is true. The only
    mount point that is not read-only is "pointdir": without log collection
    every mount is read-only, and the Docker socket always is. *)
Theorem daemon_log_collection_consistent props :
  let t := Ec2.taskDefinition (Ec2.DatadogEcsDaemonService props) in
  let on := Ec2.Daemon.logs props ≫= Ec2.Logs.enabled = Some true in
  ∃ c, Ec2.containers t = [c]
       ∧ (is_Some (Ec2.Options.environment (Ec2.options c) !! "DD_LOGS_ENABLED") ↔ on)
       ∧ (∀ v, v ∈ ["pointdir"; "containers_root"] →
            (v ∈ Ec2.sourceVolume <$> Ec2.mountPoints c ↔ on)
            ∧ (v ∈ Ec2.name <$> Ec2.volumes t ↔ on))
       ∧ (∀ m, m ∈ Ec2.mountPoints c →
            (Ec2.readOnly m = false ↔ Ec2.sourceVolume m = "pointdir")).
Proof.
  intros t on. unfold t, on.
  destruct (daemon_task_shape props) as (mps & vols & -> & -> & ->).
  eexists. split; [reflexivity|]. cbn [Ec2.options Ec2.mountPoints Ec2.volumes].
  split_and!.
  - unfold is_Some. setoid_rewrite daemon_environment_lookup.
    destruct (Ec2.Daemon.logs props ≫= Ec2.Logs.enabled) as [[]|]; simpl; naive_solver.
  - intros v Hv.
    destruct (Ec2.Daemon.logs props ≫= Ec2.Logs.enabled) as [[]|]; cbn; set_solver.
  - intros m Hm.
    destruct (Ec2.Daemon.logs props ≫= Ec2.Logs.enabled) as [[]|]; cbn in Hm;
      set_unfold; naive_solver.
Qed.

(** X20. For every configuration of the daemon service: the agent's image
    is the explicit [image] when there is one, whatever [imageTag], and
    otherwise "public.ecr.aws/datadog/agent:" followed by [imageTag]
    ("latest" when unset); its CPU reservation is [cpu], 100 when unset and
    an explicit 0 kept; its memory limit is [memoryLimitMiB], 512 when unset;
    it is essential; it has the "agent health" check unless
    [disableHealthcheck] is true, and the CloudWatch log driver only if
    [logToCloudWatch] is true; and the service is a daemon on the given
    cluster. *)
Theorem daemon_container_resolution props :
  let service := Ec2.DatadogEcsDaemonService props in
  ∃ c, Ec2.containers (Ec2.taskDefinition service) = [c]
       ∧ Ec2.Options.image (Ec2.options c)
         = match Ec2.Daemon.image props with
           | Some explicit => explicit
           | None =>
               fromRegistry
                 ("public.ecr.aws/datadog/agent:"
                    ++ default "latest" (Ec2.Daemon.imageTag props))
           end
       ∧ Ec2.Options.cpu (Ec2.options c)
         = Some (match Ec2.Daemon.cpu props with Some units => units | None => 100 end)
       ∧ Ec2.Options.memoryLimitMiB (Ec2.options c)
         = Some (match Ec2.Daemon.memoryLimitMiB props with
                 | Some limit => limit
                 | None => 512
                 end)
       ∧ Ec2.Options.essential (Ec2.options c) = Some true
       ∧ (Ec2.Options.healthCheck (Ec2.options c) = None
          ↔ Ec2.Daemon.disableHealthcheck props = Some true)
       ∧ (∀ check, Ec2.Options.healthCheck (Ec2.options c) = Some check →
            Ec2.command check = ["CMD-SHELL"; "agent health"])
       ∧ (Ec2.Options.logging (Ec2.options c) = Some (awsLogs "datadog-agent")
          ↔ Ec2.Daemon.logToCloudWatch props = Some true)
       ∧ (Ec2.Options.logging (Ec2.options c) = None
          ↔ Ec2.Daemon.logToCloudWatch props ≠ Some true)
       ∧ Ec2.daemon service = Some true
       ∧ Ec2.cluster service = Ec2.Daemon.ecsCluster props.
Proof.
  intros service.
  destruct (daemon_task_shape props) as (mps & vols & Htask & _ & _).
  assert (Ec2.daemon service = Some true ∧ Ec2.cluster service = Ec2.Daemon.ecsCluster props)
    as [? ?].
  { unfold service, Ec2.DatadogEcsDaemonService.
    by destruct (Js.truthyBool (Ec2.Daemon.logs props ≫= Ec2.Logs.enabled)). }
  unfold service. rewrite Htask. eexists. split; [reflexivity|].
  cbn [Ec2.options]. unfold Ec2.daemonContainerOptions. simpl.
  destruct (Ec2.Daemon.image props), (Ec2.Daemon.cpu props),
    (Ec2.Daemon.memoryLimitMiB props),
    (Ec2.Daemon.disableHealthcheck props) as [[]|],
    (Ec2.Daemon.logToCloudWatch props) as [[]|]; simpl; naive_solver.
Qed.

(** X21. The later class reproduces the earlier one: for every
    configuration of [EcsDatadogDaemonService], the service built by
    [DatadogEcsDaemonService] from the same cluster, site and API key secret,
    with [logs.enabled] the negation of [logsDisabled],
    [collectFromAgentContainer] and [logToCloudWatch] true and everything
    else unset, is the same service: the same container definition, mount
    points and volumes. *)
Theorem daemon_reproduces_earlier_version props :
  Ec2.DatadogEcsDaemonService (upgradeDaemonProps props)
  = Ec2.EcsDatadogDaemonService props.
Proof.
  unfold Ec2.DatadogEcsDaemonService, Ec2.EcsDatadogDaemonService,
    Ec2.daemonContainerOptions, Ec2.daemonContainerOptionsV1, upgradeDaemonProps.
  simpl. by destruct (Js.truthyBool (Ec2.DaemonV1.logsDisabled props)).
Qed.

(** * The synthetics services *)

(** X22. The two synthetics services configure the same container: for
    every configuration each task has the single container "DatadogAgent",
    without mount points or volumes, and the definition of the EC2 one is
    that of the Fargate one with a CPU reservation and a memory limit added;
    these are the CPU and memory the Fargate service gives its task instead,
    [cpu] or 256 and [memoryLimitMiB] or 512. The command carries the
    location id and the public key fingerprint of the configuration. *)
Theorem synthetics_services_agree props :
  let fargate := Ec2.taskDefinition (Synthetics.DatadogPrivateSyntheticsFargateService props) in
  let ec2 := Ec2.taskDefinition (Synthetics.DatadogPrivateSyntheticsEc2Service props) in
  ∃ f e,
    Ec2.containers fargate = [Ec2.mkContainer "DatadogAgent" f []]
    ∧ Ec2.containers ec2 = [Ec2.mkContainer "DatadogAgent" e []]
    ∧ Ec2.volumes fargate = [] ∧ Ec2.volumes ec2 = []
    ∧ Synthetics.withCpuAndMemory None None e = f
    ∧ Ec2.Options.cpu f = None ∧ Ec2.Options.memoryLimitMiB f = None
    ∧ Ec2.Options.cpu e = Ec2.taskCpu fargate
    ∧ Ec2.Options.memoryLimitMiB e = Ec2.taskMemoryLimitMiB fargate
    ∧ Ec2.taskCpu ec2 = None ∧ Ec2.taskMemoryLimitMiB ec2 = None
    ∧ Ec2.Options.cpu e
      = Some (match Synthetics.Props.cpu props with Some units => units | None => 256 end)
    ∧ Ec2.Options.memoryLimitMiB e
      = Some (match Synthetics.Props.memoryLimitMiB props with
              | Some limit => limit
              | None => 512
              end)
    ∧ Ec2.Options.command f
      = Some ["--locationID=" ++ Synthetics.Props.datadogLocationId props;
              "--publicKey.fingerprint="
                ++ Synthetics.Props.datadogPublicKeyFingerprint props;
              "--enableStatusProbes"; "--statusProbesPort=8080"].
Proof.
  intros fargate ec2. eexists _, _.
  split; [reflexivity|]. split; [reflexivity|].
  simpl. destruct (Synthetics.Props.cpu props), (Synthetics.Props.memoryLimitMiB props);
    split_and!; reflexivity.
Qed.
